(** * vscode-deno: the TypeScript plugin, the references provider and the
      resolution core they rely on

    A shallow embedding of
    - the TypeScript language-service plugin [DenoPlugin] (its [create]
      method wraps six operations of the host),
    - the language server's [References] provider,
    - the import-map engine and the cache path mapper of [core/], which the
      two files above call.

    JavaScript arrays are lists read with stdpp's [!!] (an index out of range
    reads [None], the embedding of [undefined]); [undefined] results are
    [None]; objects used as dictionaries are association lists in insertion
    order. *)

From Stdlib Require Import ZArith Ascii String Bool Lia.
From stdpp Require Import base option list strings.

Local Open Scope Z_scope.
Local Open Scope list_scope.

(** ** Strings *)

Module Str.

(** [starts_with p s]: [s.startsWith(p)], also the test of the regular
    expression [/^p/] for a literal [p]. *)
Fixpoint starts_with (p s : string) : bool :=
  match p with
  | EmptyString => true
  | String a p' =>
      match s with
      | EmptyString => false
      | String b s' => Ascii.eqb a b && starts_with p' s'
      end
  end.

(** [strip_prefix p s]: what is left of [s] after its prefix [p]. *)
Fixpoint strip_prefix (p s : string) : option string :=
  match p with
  | EmptyString => Some s
  | String a p' =>
      match s with
      | EmptyString => None
      | String b s' => if Ascii.eqb a b then strip_prefix p' s' else None
      end
  end.

Fixpoint ends_with_slash (s : string) : bool :=
  match s with
  | EmptyString => false
  | String c EmptyString => Ascii.eqb c "/"
  | String _ s' => ends_with_slash s'
  end.

Fixpoint has_slash (s : string) : bool :=
  match s with
  | EmptyString => false
  | String c s' => Ascii.eqb c "/" || has_slash s'
  end.

(** [split_slash s]: [s.split("/")]; never empty. *)
Fixpoint split_slash (s : string) : list string :=
  match s with
  | EmptyString => [EmptyString]
  | String c s' =>
      if Ascii.eqb c "/" then EmptyString :: split_slash s'
      else match split_slash s' with
           | h :: t => String c h :: t
           | [] => [String c EmptyString]
           end
  end.

(** [join_slash l]: [l.join("/")]. *)
Fixpoint join_slash (l : list string) : string :=
  match l with
  | [] => EmptyString
  | [x] => x
  | x :: l' => x +:+ "/" +:+ join_slash l'
  end.

End Str.

(** ** JavaScript values, and the deepmerge package *)

Module Js.

#[warnings="-register-all"]
Inductive JsValue : Type :=
| JNull
| JBool (b : bool)
| JNum (n : Z)
| JStr (s : string)
| JArr (xs : list JsValue)
| JObj (fields : list (string * JsValue)).

Definition JsObject := list (string * JsValue).

(** [o[k]] for an own property. *)
Fixpoint obj_get (k : string) (o : JsObject) : option JsValue :=
  match o with
  | [] => None
  | (k', v) :: o' => if String.eqb k k' then Some v else obj_get k o'
  end.

(** [o[k] = v]: an existing key keeps its place, a new one goes last. *)
Fixpoint obj_set (k : string) (v : JsValue) (o : JsObject) : JsObject :=
  match o with
  | [] => [(k, v)]
  | (k', v') :: o' =>
      if String.eqb k k' then (k, v) :: o' else (k', v') :: obj_set k v o'
  end.

Definition obj_has (k : string) (o : JsObject) : bool :=
  match obj_get k o with Some _ => true | None => false end.

(** The property names every object inherits from [Object.prototype]. *)
Definition object_prototype_names : list string :=
  ["constructor"; "__defineGetter__"; "__defineSetter__"; "hasOwnProperty";
   "__lookupGetter__"; "__lookupSetter__"; "isPrototypeOf";
   "propertyIsEnumerable"; "toString"; "valueOf"; "__proto__";
   "toLocaleString"].

Definition in_names (k : string) (l : list string) : bool :=
  existsb (String.eqb k) l.

(** deepmerge's [isMergeableObject]: a non-null object (plain object or
    array). *)
Definition isMergeableObject (v : JsValue) : bool :=
  match v with
  | JArr _ | JObj _ => true
  | _ => false
  end.

(** deepmerge's [propertyIsOnObject]: [key in object]; the test throws on a
    primitive and the package answers [false] then. *)
Definition propertyIsOnObject (target : JsValue) (key : string) : bool :=
  match target with
  | JObj tf => obj_has key tf || in_names key object_prototype_names
  | _ => false
  end.

Definition hasOwnEnumerable (target : JsValue) (key : string) : bool :=
  match target with
  | JObj tf => obj_has key tf
  | _ => false
  end.

(** deepmerge's [propertyIsUnsafe]. *)
Definition propertyIsUnsafe (target : JsValue) (key : string) : bool :=
  propertyIsOnObject target key && negb (hasOwnEnumerable target key).

Definition own_fields (target : JsValue) : JsObject :=
  match target with
  | JObj tf => tf
  | _ => []
  end.

Definition prop (target : JsValue) (key : string) : JsValue :=
  match obj_get key (own_fields target) with
  | Some v => v
  | None => JNull
  end.

(** [deepmerge(target, source)] of the deepmerge package with its default
    options: two arrays are concatenated, an object is merged into a target
    that is no array key by key ([mergeObject], the inner loop), and an
    array and a non-array give the source. Clones are the values
    themselves. The last case, a source that is no object, is not reached:
    [mergeObject] recurses on a mergeable [source[key]] only and the plugin
    calls [merge] on two objects. *)
Fixpoint deepmerge (target source : JsValue) {struct source} : JsValue :=
  match source with
  | JArr ys =>
      match target with
      | JArr xs => JArr (xs ++ ys)
      | _ => source
      end
  | JObj sf =>
      match target with
      | JArr _ => source
      | _ =>
          JObj
            ((fix mergeKeys (keys : list (string * JsValue))
                  (destination : JsObject) {struct keys} : JsObject :=
                match keys with
                | [] => destination
                | (key, sv) :: rest =>
                    mergeKeys rest
                      (if propertyIsUnsafe target key then destination
                       else if propertyIsOnObject target key
                               && isMergeableObject sv
                            then obj_set key (deepmerge (prop target key) sv)
                                   destination
                            else obj_set key sv destination)
                end) sf (own_fields target))
      end
  | _ => source
  end.

(** deepmerge's [mergeObject] loop over the keys of the source, on its own:
    [deepmerge_object] shows it is the loop inside [deepmerge]. *)
Fixpoint mergeObject (target : JsValue) (keys : list (string * JsValue))
    (destination : JsObject) {struct keys} : JsObject :=
  match keys with
  | [] => destination
  | (key, sv) :: rest =>
      mergeObject target rest
        (if propertyIsUnsafe target key then destination
         else if propertyIsOnObject target key && isMergeableObject sv
              then obj_set key (deepmerge (prop target key) sv) destination
              else obj_set key sv destination)
  end.

(** [merge(x, y)] on two objects, as the plugin imports it. *)
Definition merge (x y : JsObject) : JsObject :=
  own_fields (deepmerge (JObj x) (JObj y)).

End Js.

(** ** The TypeScript plugin: [DenoPlugin.create] *)

Module Plugin.
Import Js.

(** What [create] reads from the [typescript] module it is constructed
    with: enum members (numbers) and the [".js"] extension. *)
Record TsModule : Type := {
  JsxEmit_React : Z;
  ModuleKind_ESNext : Z;
  ModuleResolutionKind_NodeJs : Z;
  ScriptTarget_ESNext : Z;
  Extension_Js : string
}.

(** [DenoPluginConfig]: the fields the plugin reads. *)
Record DenoPluginConfig : Type := {
  enable : bool;
  import_map : option string
}.

(** [core/module_resolver]'s [ResolvedModule]. *)
Record ResolvedModule : Type := {
  module : string;
  filepath : string
}.

(** [ts.ResolvedModuleFull]. *)
Record TsResolvedModule : Type := {
  resolvedFileName : string;
  extension : option string;
  isExternalLibraryImport : option bool
}.

Record Diagnostic : Type := {
  code : Z;
  messageText : string
}.

Record TextChange : Type := {
  span : Z * Z;
  newText : string
}.

Record FileTextChanges : Type := {
  fileName : string;
  textChanges : list TextChange;
  isNewFile : option bool
}.

Record CodeAction : Type := {
  description : string;
  changes : list FileTextChanges
}.

Record SymbolDisplayPart : Type := {
  text : string;
  kind : string
}.

Record CompletionEntryDetails : Type := {
  name : string;
  kindModifiers : string;
  displayParts : list SymbolDisplayPart;
  codeActions : option (list CodeAction);
  source : option (list SymbolDisplayPart)
}.

(** The [project] of the [PluginCreateInfo]. *)
Record Project : Type := {
  getCurrentDirectory : string;
  realpath : option (string -> string)
}.

(** Everything [create] calls that is not in the plugin's file: Node's
    [path] and the file system, and the modules of [core/].
    [resolveModules c m names] stands for
    [ModuleResolver.create(c, m).resolveModules(names)] and
    [CacheModule_create p] for the [url.href] of [CacheModule.create(p)]. *)
Record Env : Type := {
  typescript : TsModule;
  path_isAbsolute : string -> bool;
  path_resolve : string -> string -> string;
  path_posix_resolve : string -> string -> string;
  path_dirname : string -> string;
  pathExistsSync : string -> bool;
  getDenoDts : string;
  normalizeFilepath : string -> string;
  normalizeImportStatement : string -> string -> string;
  CacheModule_create : string -> option string;
  resolveModules :
    string -> option string -> list string -> list (option ResolvedModule)
}.

Section Host.

(** The trailing arguments ([...rest]) and the host's result for a type
    directive are passed along untouched. *)
Variable Rest : Type.
Variable TypeDirective : Type.

(** The methods of [languageServiceHost] and [languageService] that [create]
    binds before it replaces them. The two resolvers are optional in the
    host's interface. A name handed to [resolveModuleNames] is [None] where
    the array slot holds [undefined]. *)
Record Host : Type := {
  getCompilationSettings : JsObject;
  getScriptFileNames : list string;
  resolveModuleNames :
    option (list (option string) -> string -> Rest ->
            list (option TsResolvedModule));
  resolveTypeReferenceDirectives :
    option (list string -> string -> Rest -> list (option TypeDirective));
  getSemanticDiagnostics : string -> list Diagnostic;
  getCompletionEntryDetails :
    string -> Z -> string -> Rest -> option CompletionEntryDetails
}.

Variable E : Env.
Variable project : Project.
Variable config : DenoPluginConfig.
Variable host : Host.

Definition DEFAULT_OPTIONS : JsObject :=
  [("allowJs", JBool true);
   ("checkJs", JBool false);
   ("strict", JBool true);
   ("esModuleInterop", JBool true);
   ("jsx", JNum (JsxEmit_React (typescript E)));
   ("module", JNum (ModuleKind_ESNext (typescript E)));
   ("moduleResolution", JNum (ModuleResolutionKind_NodeJs (typescript E)));
   ("outDir", JStr "$deno$");
   ("resolveJsonModule", JBool true);
   ("sourceMap", JBool true);
   ("stripComments", JBool true);
   ("target", JNum (ScriptTarget_ESNext (typescript E)));
   ("noEmit", JBool true);
   ("noEmitHelpers", JBool true)].

Definition option_of (k : string) (o : JsObject) : JsValue :=
  prop (JObj o) k.

Definition MUST_OVERWRITE_OPTIONS : JsObject :=
  [("jsx", option_of "jsx" DEFAULT_OPTIONS);
   ("module", option_of "module" DEFAULT_OPTIONS);
   ("moduleResolution", option_of "moduleResolution" DEFAULT_OPTIONS);
   ("resolveJsonModule", option_of "resolveJsonModule" DEFAULT_OPTIONS);
   ("strict", option_of "strict" DEFAULT_OPTIONS);
   ("noEmit", option_of "noEmit" DEFAULT_OPTIONS);
   ("noEmitHelpers", option_of "noEmitHelpers" DEFAULT_OPTIONS)].

(** [languageServiceHost.getCompilationSettings]. *)
Definition wrapped_getCompilationSettings : JsObject :=
  let projectConfig := getCompilationSettings host in
  if negb (enable config) then projectConfig
  else merge (merge DEFAULT_OPTIONS projectConfig) MUST_OVERWRITE_OPTIONS.

(** [languageServiceHost.getScriptFileNames]: the entries of the [Set] made
    of the one-element array [dtsFiles] are that one file, pushed onto the
    host's array. *)
Definition wrapped_getScriptFileNames : list string :=
  let scriptFileNames := getScriptFileNames host in
  if negb (enable config) then scriptFileNames
  else
    let dtsFiles := [getDenoDts E] in
    fold_left (fun acc filepath => acc ++ [filepath]) dtsFiles
      scriptFileNames.

(** [realpath ? realpath(containingFile) : containingFile]. *)
Definition realpathOf (containingFile : string) : string :=
  match realpath project with
  | Some f => f containingFile
  | None => containingFile
  end.

(** [realContainingFile] once the [/^untitled:/] test has replaced it by
    the project's directory. *)
Definition realContainingFile (containingFile : string) : string :=
  let real := realpathOf containingFile in
  if Str.starts_with "untitled:" real then getCurrentDirectory project
  else real.

(** A string is truthy when it is defined and not empty. *)
Definition truthy (s : option string) : option string :=
  match s with
  | Some EmptyString => None
  | _ => s
  end.

Definition importMapsFilepath : option string :=
  match truthy (import_map config) with
  | Some m =>
      if path_isAbsolute E m then Some m
      else Some (path_resolve E (getCurrentDirectory project) m)
  | None => None
  end.

(** The result of [resolver.resolveModules(names)] for the resolver that
    both wrappers create. *)
Definition resolverModules (containingFile : string) (names : list string)
  : list (option ResolvedModule) :=
  resolveModules E (realContainingFile containingFile) importMapsFilepath
    names.

(** The names [resolveTypeReferenceDirectives] hands to the host:
    [.filter(v => v)] then [.map(v => v.module)]. *)
Definition typeDirectiveNamesForHost (containingFile : string)
    (typeDirectiveNames : list string) : list string :=
  let resolvedModules :=
    omap (fun v => v) (resolverModules containingFile typeDirectiveNames) in
  module <$> resolvedModules.

(** [languageServiceHost.resolveTypeReferenceDirectives], installed only
    when the host has the method. *)
Definition wrapped_resolveTypeReferenceDirectives
  : option (list string -> string -> Rest -> list (option TypeDirective)) :=
  match resolveTypeReferenceDirectives host with
  | None => None
  | Some hostResolve =>
      Some (fun typeDirectiveNames containingFile rest =>
        if negb (enable config)
        then hostResolve typeDirectiveNames containingFile rest
        else hostResolve
               (typeDirectiveNamesForHost containingFile typeDirectiveNames)
               containingFile rest)
  end.

Definition ignoreCodeMapInDeno (c : Z) : bool :=
  (c =? 2691) || (c =? 1103).

(** [languageService.getSemanticDiagnostics]. *)
Definition wrapped_getSemanticDiagnostics (filename : string)
  : list Diagnostic :=
  let diagnostics := getSemanticDiagnostics host filename in
  if negb (enable config) then diagnostics
  else List.filter (fun v => negb (ignoreCodeMapInDeno (code v))) diagnostics.

(** The loop over [details.codeActions]: the new text of every change of a
    file that is not new is normalized. *)
Definition normalizeTextChange (fileName0 : string) (tc : TextChange)
  : TextChange :=
  {| span := span tc;
     newText := normalizeImportStatement E fileName0 (newText tc) |}.

Definition is_true (b : option bool) : bool :=
  match b with Some true => true | _ => false end.

Definition normalizeChange (fileName0 : string) (change : FileTextChanges)
  : FileTextChanges :=
  if negb (is_true (isNewFile change))
  then {| fileName := fileName change;
          textChanges := normalizeTextChange fileName0 <$> textChanges change;
          isNewFile := isNewFile change |}
  else change.

Definition normalizeCodeAction (fileName0 : string) (ca : CodeAction)
  : CodeAction :=
  {| description := description ca;
     changes := normalizeChange fileName0 <$> changes ca |}.

(** The loop over [details.source]: a text part that names a file of the
    cache shows the module's URL. *)
Definition rewriteSourcePart (fileName0 : string) (part : SymbolDisplayPart)
  : SymbolDisplayPart :=
  if String.eqb (kind part) "text" then
    let absoluteFilepath :=
      path_posix_resolve E (path_dirname E fileName0)
        (normalizeFilepath E (text part)) in
    if path_isAbsolute E absoluteFilepath then
      match CacheModule_create E absoluteFilepath with
      | Some href => {| text := href; kind := kind part |}
      | None => part
      end
    else part
  else part.

(** [languageService.getCompletionEntryDetails]. *)
Definition wrapped_getCompletionEntryDetails (fileName0 : string)
    (position : Z) (name0 : string) (rest : Rest)
  : option CompletionEntryDetails :=
  let details := getCompletionEntryDetails host fileName0 position name0 rest in
  if negb (enable config) then details
  else
    match details with
    | Some d =>
        if String.eqb (kindModifiers d) "export" then
          Some {| name := name d;
                  kindModifiers := kindModifiers d;
                  displayParts := displayParts d;
                  codeActions :=
                    (fun cas : list CodeAction => normalizeCodeAction fileName0 <$> cas)
                      <$> codeActions d;
                  source :=
                    (fun parts : list SymbolDisplayPart =>
                       rewriteSourcePart fileName0 <$> parts)
                      <$> source d |}
        else details
    | None => details
    end.

(** The names [resolveModuleNames] hands to the host:
    [resolvedModules.map((v, index) => v ? v.module : moduleNames[index])]. *)
Definition moduleNamesForHost (moduleNames : list string)
    (resolvedModules : list (option ResolvedModule)) : list (option string) :=
  imap (fun index v =>
          match v with
          | Some m => Some (module m)
          | None => moduleNames !! index
          end) resolvedModules.

(** The callback of the final [.map]: an [undefined] result of the host is
    replaced by the cache file of the Deno resolver's module, when that file
    is absolute and exists. *)
Definition cacheFallback (resolvedModules : list (option ResolvedModule))
    (index : nat) (v : option TsResolvedModule) : option TsResolvedModule :=
  match v with
  | Some _ => v
  | None =>
      match resolvedModules !! index with
      | Some (Some cacheModule) =>
          let moduleFilepath := filepath cacheModule in
          if path_isAbsolute E moduleFilepath
             && pathExistsSync E moduleFilepath
          then Some {| resolvedFileName := moduleFilepath;
                       extension := Some (Extension_Js (typescript E));
                       isExternalLibraryImport := Some false |}
          else v
      | _ => v
      end
  end.

(** The enabled branch of the [resolveModuleNames] wrapper. *)
Definition resolveModuleNames_enabled
    (hostResolve : list (option string) -> string -> Rest ->
                   list (option TsResolvedModule))
    (moduleNames : list string) (containingFile : string) (rest : Rest)
  : list (option TsResolvedModule) :=
  let resolvedModules := resolverModules containingFile moduleNames in
  imap (cacheFallback resolvedModules)
    (hostResolve (moduleNamesForHost moduleNames resolvedModules)
       containingFile rest).

(** [languageServiceHost.resolveModuleNames], installed only when the host
    has the method. *)
Definition wrapped_resolveModuleNames
  : option (list string -> string -> Rest -> list (option TsResolvedModule)) :=
  match resolveModuleNames host with
  | None => None
  | Some hostResolve =>
      Some (fun moduleNames containingFile rest =>
        if negb (enable config)
        then hostResolve (Some <$> moduleNames) containingFile rest
        else resolveModuleNames_enabled hostResolve moduleNames
               containingFile rest)
  end.

End Host.

Arguments getCompilationSettings {Rest TypeDirective} _.
Arguments getScriptFileNames {Rest TypeDirective} _.
Arguments resolveModuleNames {Rest TypeDirective} _.
Arguments resolveTypeReferenceDirectives {Rest TypeDirective} _.
Arguments getSemanticDiagnostics {Rest TypeDirective} _ _.
Arguments getCompletionEntryDetails {Rest TypeDirective} _ _ _ _ _.
Arguments wrapped_getCompilationSettings {Rest TypeDirective} _ _ _.
Arguments wrapped_getScriptFileNames {Rest TypeDirective} _ _ _.
Arguments wrapped_resolveTypeReferenceDirectives {Rest TypeDirective} _ _ _ _.
Arguments wrapped_getSemanticDiagnostics {Rest TypeDirective} _ _ _.
Arguments wrapped_getCompletionEntryDetails {Rest TypeDirective} _ _ _ _ _ _ _.
Arguments resolveModuleNames_enabled {Rest} _ _ _ _ _ _ _.
Arguments wrapped_resolveModuleNames {Rest TypeDirective} _ _ _ _.

End Plugin.

(** ** The references provider: [References] *)

Module Refs.

Record Position : Type := {
  line : Z;
  character : Z
}.

Record Range : Type := {
  range_start : Position;
  range_end : Position
}.

Record Location : Type := {
  uri : string;
  range : Range
}.

(** [Range.create(0, 0, 0, 0)]. *)
Definition Range_create (l1 c1 l2 c2 : Z) : Range :=
  {| range_start := {| line := l1; character := c1 |};
     range_end := {| line := l2; character := c2 |} |}.

Definition Location_create (u : string) (r : Range) : Location :=
  {| uri := u; range := r |}.

(** What [getDenoTypesHintsFromDocument] yields for a pragma comment. *)
Record DenoTypesHint : Type := {
  filepath : string;
  contentRange : Range
}.

Section Provider.

Variable TextDocument : Type.

(** [documents.get], the hint scanner of [../deno_types], [pathExists] of
    [core/util] (the awaited answer) and [URI.file(p).toString()]. *)
Record Services : Type := {
  documents_get : string -> option TextDocument;
  getDenoTypesHintsFromDocument : TextDocument -> list DenoTypesHint;
  pathExists : string -> bool;
  URI_file : string -> string
}.

Variable S : Services.

(** The four comparisons of the handler's [if]. *)
Definition positionHits (position : Position) (typeComment : DenoTypesHint)
  : bool :=
  let start := range_start (contentRange typeComment) in
  let end_ := range_end (contentRange typeComment) in
  (line start <=? line position)
  && (line position <=? line end_)
  && (character start <=? character position)
  && (character position <=? character end_).

(** The body of the [for] loop: [locations.push(...)] under the two tests. *)
Definition visitHint (position : Position) (locations : list Location)
    (typeComment : DenoTypesHint) : list Location :=
  if positionHits position typeComment then
    if pathExists S (filepath typeComment) then
      locations ++
        [Location_create (URI_file S (filepath typeComment))
           (Range_create 0 0 0 0)]
    else locations
  else locations.

(** The handler given to [connection.onReferences]; [None] is the bare
    [return] for an unknown document. *)
Definition onReferences (textDocument_uri : string) (position : Position)
  : option (list Location) :=
  match documents_get S textDocument_uri with
  | None => None
  | Some document =>
      Some (fold_left (visitHint position)
              (getDenoTypesHintsFromDocument S document) [])
  end.

End Provider.

Arguments documents_get {TextDocument} _ _.
Arguments getDenoTypesHintsFromDocument {TextDocument} _ _.
Arguments pathExists {TextDocument} _ _.
Arguments URI_file {TextDocument} _ _.
Arguments visitHint {TextDocument} _ _ _ _.
Arguments onReferences {TextDocument} _ _ _.

(** Positions in document order, and a position inside a range with both
    ends included: the reading of "inside the range" the handler is
    compared with. *)
Definition position_leb (p q : Position) : bool :=
  (line p <? line q) || ((line p =? line q) && (character p <=? character q)).

Definition inside (position : Position) (r : Range) : bool :=
  position_leb (range_start r) position && position_leb position (range_end r).

(** A pragma is a line comment: its path literal starts and ends on one
    line. *)
Definition on_one_line (h : DenoTypesHint) : Prop :=
  line (range_start (contentRange h)) = line (range_end (contentRange h)).

(** The locations one hint accounts for. *)
Definition locationsOf {TextDocument} (S : Services TextDocument)
    (position : Position) (h : DenoTypesHint) : list Location :=
  if inside position (contentRange h) && pathExists S (filepath h)
  then [Location_create (URI_file S (filepath h)) (Range_create 0 0 0 0)]
  else [].

(** The location pushed for a hint, and the two tests under which it is
    pushed. *)
Definition locationAt {TextDocument} (S : Services TextDocument)
    (h : DenoTypesHint) : Location :=
  Location_create (URI_file S (filepath h)) (Range_create 0 0 0 0).

Definition reported {TextDocument} (S : Services TextDocument)
    (position : Position) (h : DenoTypesHint) : bool :=
  positionHits position h && pathExists S (filepath h).

End Refs.

(** ** The import-map engine *)

Module ImportMap.
Import Js.

Definition Mapping := list (string * string).

(** Modelled from the spec: the [ImportMap] of [core/import_map], which is
    not among the sources. An ordered mapping from specifier prefix to
    target, and an ordered mapping from scope prefix to such a mapping. *)
Record ImportMap : Type := {
  imports : Mapping;
  scopes : list (string * Mapping)
}.


(** Modelled from the spec: the selection rule of the import-map engine,
    absent from the sources. Among the entries whose key matches, the one
    with the longest key; of two keys of one length the first declared
    stays. *)
Fixpoint longest_match {A : Type} (matches : string -> bool)
    (entries : list (string * A)) : option (string * A) :=
  match entries with
  | [] => None
  | (k, v) :: rest =>
      let later := longest_match matches rest in
      if matches k then
        match later with
        | Some (k', v') =>
            if (String.length k <? String.length k')%nat then later
            else Some (k, v)
        | None => Some (k, v)
        end
      else later
  end.

(** Modelled from the spec: when a key of a mapping applies to a specifier
    (absent from the sources). The two cases the spec gives a result for:
    the key is the specifier, or the key ends with a slash and starts the
    specifier. *)
Definition key_matches (specifier key : string) : bool :=
  String.eqb key specifier
  || (Str.ends_with_slash key && Str.starts_with key specifier).

(** Modelled from the spec: the substitution of the import-map engine
    (absent from the sources). A key that ends with a slash has the rest of
    the specifier appended to its target; a key equal to the specifier
    gives the target as it is. *)
Definition substitute (key target specifier : string) : string :=
  if Str.ends_with_slash key then
    match Str.strip_prefix key specifier with
    | Some remainder => target +:+ remainder
    | None => target
    end
  else target.

(** What "the longest matching prefix, the first declared on a tie" says
    of the entry at index [i] with key [k]: it matches, and every other
    matching entry has a shorter key, or a key of the same length declared
    at [i] or later. *)
Definition longest_first {A : Type} (matches : string -> bool)
    (entries : list (string * A)) (i : nat) (k : string) : Prop :=
  matches k = true
  /\ forall j k' v',
      entries !! j = Some (k', v') ->
      matches k' = true ->
      (String.length k' < String.length k)%nat
      \/ (String.length k' = String.length k /\ (i <= j)%nat).

(** Modelled from the spec: the entry of a mapping chosen for a specifier
    (the engine is absent from the sources). *)
Definition select_key (m : Mapping) (specifier : string)
  : option (string * string) :=
  longest_match (key_matches specifier) m.

(** Modelled from the spec: the scope chosen for a referrer (the engine is
    absent from the sources): its prefix starts the referrer's URL. *)
Definition select_scope (map : ImportMap) (referrerURL : string)
  : option (string * Mapping) :=
  longest_match (fun p => Str.starts_with p referrerURL) (scopes map).

(** Modelled from the spec: the target a mapping gives a specifier (the
    engine is absent from the sources). *)
Definition lookup (m : Mapping) (specifier : string) : option string :=
  match select_key m specifier with
  | Some (key, target) => Some (substitute key target specifier)
  | None => None
  end.

(** Modelled from the spec: [resolve(map, specifier, referrerURL)] of the
    import-map engine, absent from the sources. The scope with the longest
    prefix of the referrer is searched first, then the top-level imports;
    [None] is "unresolved". *)
Definition resolve (map : ImportMap) (specifier referrerURL : string)
  : option string :=
  match select_scope map referrerURL with
  | Some (_, scoped) =>
      match lookup scoped specifier with
      | Some t => Some t
      | None => lookup (imports map) specifier
      end
  | None => lookup (imports map) specifier
  end.




Section Loading.

(** The file system ([None]: no such file) and [JSON.parse] ([None]: the
    text is not JSON). *)
Variable readFile : string -> option string.
Variable JSON_parse : string -> option JsValue.



End Loading.

End ImportMap.

(** ** The cache path mapper *)

Module Cache.

(** Modelled from the spec: the canonical URL of a cached module
    ([core/deno_cache] is not among the sources): scheme, authority and
    the segments of the path (a query stays in the last segment). *)
Record Url : Type := {
  scheme : string;
  authority : string;
  segments : list string
}.

(** Modelled from the spec: the schemes of a remote module (the mapper is
    absent from the sources). *)
Definition recognized (s : string) : bool :=
  String.eqb s "http" || String.eqb s "https".

Definition no_slash (s : string) : bool := negb (Str.has_slash s).

(** Modelled from the spec: the URLs the mapper accepts (the mapper is
    absent from the sources): a remote scheme, an authority, and no
    separator inside a component. *)
Definition accepts (u : Url) : bool :=
  recognized (scheme u)
  && negb (String.eqb (authority u) "")
  && no_slash (authority u)
  && forallb no_slash (segments u).

Section Mapper.

Variable cacheRoot : string.

(** Modelled from the spec: [urlToPath] of the cache path mapper, absent
    from the sources. Under the cache root, the scheme, the authority and
    the path segments as nested directories. *)
Definition urlToPath (u : Url) : string :=
  cacheRoot +:+ "/" +:+ Str.join_slash (scheme u :: authority u :: segments u).

(** Modelled from the spec: [pathToUrl] of the cache path mapper, absent
    from the sources. [None] for a path that is not under the cache root or
    has no scheme and authority directories. *)
Definition pathToUrl (p : string) : option Url :=
  match Str.strip_prefix (cacheRoot +:+ "/") p with
  | None => None
  | Some relative =>
      match Str.split_slash relative with
      | s :: a :: segs =>
          if recognized s && negb (String.eqb a "")
          then Some {| scheme := s; authority := a; segments := segs |}
          else None
      | _ => None
      end
  end.

End Mapper.

End Cache.

(** ** A small project, used to run the definitions *)

Module Demo.
Import Js Plugin.

Definition ts : TsModule :=
  {| JsxEmit_React := 2;
     ModuleKind_ESNext := 99;
     ModuleResolutionKind_NodeJs := 2;
     ScriptTarget_ESNext := 99;
     Extension_Js := ".js" |}.

Definition cached (specifier : string) : string :=
  match Str.strip_prefix "https://" specifier with
  | Some rest => "/deno/deps/https/" +:+ rest
  | None => specifier
  end.

(** A resolver that knows remote modules only. *)
Definition resolveOne (specifier : string) : option ResolvedModule :=
  if Str.starts_with "https://" specifier
  then Some {| module := specifier; filepath := cached specifier |}
  else None.

Definition env : Env :=
  {| typescript := ts;
     path_isAbsolute := Str.starts_with "/";
     path_resolve := fun base p => base +:+ "/" +:+ p;
     path_posix_resolve := fun base p => base +:+ "/" +:+ p;
     path_dirname := fun _ => "/proj";
     pathExistsSync := String.eqb "/deno/deps/https/deno.land/std/fs/mod.ts";
     getDenoDts := "/deno/lib.deno_runtime.d.ts";
     normalizeFilepath := fun p => p;
     normalizeImportStatement := fun _ statement => statement;
     CacheModule_create := fun _ => None;
     resolveModules := fun _ _ names => resolveOne <$> names |}.

Definition project : Project :=
  {| getCurrentDirectory := "/proj";
     realpath := Some (fun p => p) |}.

Definition enabled : DenoPluginConfig :=
  {| enable := true; import_map := Some "import_map.json" |}.

Definition disabled : DenoPluginConfig :=
  {| enable := false; import_map := None |}.

Definition localModule : TsResolvedModule :=
  {| resolvedFileName := "/proj/local.ts";
     extension := Some ".ts";
     isExternalLibraryImport := Some false |}.

(** A host that finds [./local.ts] and nothing else, and answers every
    type directive with its own name. *)
Definition hostModule (name0 : option string) : option TsResolvedModule :=
  match name0 with
  | Some n => if String.eqb n "./local.ts" then Some localModule else None
  | None => None
  end.

Definition host : Host unit string :=
  {| getCompilationSettings :=
       [("strict", JBool false); ("jsx", JNum 1); ("lib", JArr [JStr "dom"])];
     getScriptFileNames := ["/proj/main.ts"];
     resolveModuleNames := Some (fun names _ _ => hostModule <$> names);
     resolveTypeReferenceDirectives :=
       Some (fun names _ _ => (fun n => Some n) <$> names);
     getSemanticDiagnostics := fun _ =>
       [{| code := 2691; messageText := "import ends with .ts" |};
        {| code := 2304; messageText := "cannot find name" |}];
     getCompletionEntryDetails := fun _ _ _ _ => None |}.

(** The map of the spec's precedence example, and one with a scope. *)
Definition prefixMap : ImportMap.ImportMap :=
  {| ImportMap.imports := [("a/", "/x/"); ("a/b", "/y")];
     ImportMap.scopes := [] |}.

Definition scopedMap : ImportMap.ImportMap :=
  {| ImportMap.imports := [("a", "/top")];
     ImportMap.scopes := [("/pkg/", [("a", "/scoped")])] |}.



Definition stdFs : Cache.Url :=
  {| Cache.scheme := "https";
     Cache.authority := "deno.land";
     Cache.segments := ["std"; "fs"; "mod.ts"] |}.

(** A document with one pragma naming [./types.d.ts], whose path literal
    spans columns 16 to 28 of line 0. *)
Definition typesHint : Refs.DenoTypesHint :=
  {| Refs.filepath := "/proj/types.d.ts";
     Refs.contentRange := Refs.Range_create 0 16 0 28 |}.

Definition services : Refs.Services string :=
  {| Refs.documents_get := fun u =>
       if String.eqb u "file:///proj/main.ts"
       then Some "// @deno-types=./types.d.ts" else None;
     Refs.getDenoTypesHintsFromDocument := fun _ => [typesHint];
     Refs.pathExists := String.eqb "/proj/types.d.ts";
     Refs.URI_file := fun p => "file://" +:+ p |}.

End Demo.

(** ** One array shared between the calls of [getScriptFileNames] *)

Module SharedArray.
Import Plugin.

Section Calls.

Context {Rest TypeDirective : Type}.
Variable E : Env.
Variable config : DenoPluginConfig.
Variable host : Host Rest TypeDirective.

(** The host with [store] as the array its [getScriptFileNames] returns. *)
Definition hostReturning (store : list string) : Host Rest TypeDirective :=
  {| getCompilationSettings := getCompilationSettings host;
     getScriptFileNames := store;
     resolveModuleNames := resolveModuleNames host;
     resolveTypeReferenceDirectives := resolveTypeReferenceDirectives host;
     getSemanticDiagnostics := getSemanticDiagnostics host;
     getCompletionEntryDetails := getCompletionEntryDetails host |}.

(** One call of the wrapped [getScriptFileNames] when the host hands out
    the same array object at every call: [scriptFileNames.push] changes
    that array, so the list the call returns is also the list the host
    holds afterwards. The pair is (result, array of the host). *)
Definition call (store : list string) : list string * list string :=
  let result := wrapped_getScriptFileNames E config (hostReturning store) in
  (result, result).

(** The host's array after [n] calls. *)
Fixpoint afterCalls (n : nat) (store : list string) : list string :=
  match n with
  | O => store
  | Datatypes.S n' => afterCalls n' (snd (call store))
  end.

End Calls.

End SharedArray.

(** ** A second project, with completion details and a populated cache *)

Module Sample.
Import Plugin.

Definition env : Env :=
  {| typescript := Demo.ts;
     path_isAbsolute := Str.starts_with "/";
     path_resolve := fun base p =>
       if Str.starts_with "/" p then p
       else if Str.starts_with "/" base then base +:+ "/" +:+ p
       else "/" +:+ base +:+ "/" +:+ p;
     path_posix_resolve := fun base p =>
       if Str.starts_with "/" p then p else base +:+ "/" +:+ p;
     path_dirname := fun _ => "/proj";
     pathExistsSync := String.eqb "/deno/deps/https/deno.land/std/fs/mod.ts";
     getDenoDts := "/deno/lib.deno_runtime.d.ts";
     normalizeFilepath := fun p => p;
     normalizeImportStatement := fun _ statement => statement +:+ ";";
     CacheModule_create := fun p =>
       match Str.strip_prefix "/deno/deps/https/" p with
       | Some rest => Some ("https://" +:+ rest)
       | None => None
       end;
     resolveModules := fun _ _ names => Demo.resolveOne <$> names |}.

Definition importChange : FileTextChanges :=
  {| fileName := "/proj/main.ts";
     textChanges :=
       [{| span := (0, 0); newText := "import { exists } from ./mod" |}];
     isNewFile := None |}.

Definition newFileChange : FileTextChanges :=
  {| fileName := "/proj/new.ts";
     textChanges := [{| span := (0, 0); newText := "export {}" |}];
     isNewFile := Some true |}.

Definition details : CompletionEntryDetails :=
  {| name := "exists";
     kindModifiers := "export";
     displayParts := [{| text := "function"; kind := "keyword" |}];
     codeActions :=
       Some [{| description := "Import exists";
                changes := [importChange; newFileChange] |}];
     source :=
       Some [{| text := "/deno/deps/https/deno.land/std/fs/mod.ts";
                kind := "text" |};
             {| text := "."; kind := "punctuation" |}] |}.

Definition host : Host unit string :=
  {| getCompilationSettings := getCompilationSettings Demo.host;
     getScriptFileNames := ["/proj/main.ts"; "/proj/util.ts"];
     resolveModuleNames := resolveModuleNames Demo.host;
     resolveTypeReferenceDirectives :=
       resolveTypeReferenceDirectives Demo.host;
     getSemanticDiagnostics := getSemanticDiagnostics Demo.host;
     getCompletionEntryDetails := fun _ _ _ _ => Some details |}.

(** A configuration with the plugin on and no import map. *)
Definition noMap : DenoPluginConfig :=
  {| enable := true; import_map := Some "" |}.

Definition absoluteMap : DenoPluginConfig :=
  {| enable := true; import_map := Some "/etc/import_map.json" |}.

(** A project without [realpath]. *)
Definition plainProject : Project :=
  {| getCurrentDirectory := "/proj"; realpath := None |}.

(** A resolver that knows nothing. *)
Definition blindEnv : Env :=
  {| typescript := Demo.ts;
     path_isAbsolute := Str.starts_with "/";
     path_resolve := fun base p => base +:+ "/" +:+ p;
     path_posix_resolve := fun base p => base +:+ "/" +:+ p;
     path_dirname := fun _ => "/proj";
     pathExistsSync := fun _ => false;
     getDenoDts := "/deno/lib.deno_runtime.d.ts";
     normalizeFilepath := fun p => p;
     normalizeImportStatement := fun _ statement => statement;
     CacheModule_create := fun _ => None;
     resolveModules := fun _ _ names => (fun _ => None) <$> names |}.

(** A document with two pragmas, the second naming a file that is not on
    disk, and one whose range runs over two lines. *)
Definition missingHint : Refs.DenoTypesHint :=
  {| Refs.filepath := "/proj/missing.d.ts";
     Refs.contentRange := Refs.Range_create 0 16 0 28 |}.

Definition services : Refs.Services string :=
  {| Refs.documents_get := fun u =>
       if String.eqb u "file:///proj/main.ts" then Some "main" else None;
     Refs.getDenoTypesHintsFromDocument := fun _ =>
       [Demo.typesHint; missingHint];
     Refs.pathExists := String.eqb "/proj/types.d.ts";
     Refs.URI_file := fun p => "file://" +:+ p |}.

End Sample.

(** ** Strings: lemmas *)

Module StrFacts.
Import Str.

Lemma starts_with_app p s : starts_with p (p +:+ s) = true.
Proof.
  induction p as [|a p IH]; simpl; [reflexivity|].
  rewrite Ascii.eqb_refl. exact IH.
Qed.

Lemma strip_prefix_app p s : strip_prefix p (p +:+ s) = Some s.
Proof.
  induction p as [|a p IH]; simpl; [reflexivity|].
  rewrite Ascii.eqb_refl. exact IH.
Qed.

Lemma append_assoc a b c : (a +:+ b) +:+ c = a +:+ (b +:+ c).
Proof.
  induction a as [|x a IH]; [reflexivity|].
  change (String x ((a +:+ b) +:+ c) = String x (a +:+ (b +:+ c))).
  now rewrite IH.
Qed.

Lemma split_slash_no_slash s : has_slash s = false -> split_slash s = [s].
Proof.
  induction s as [|c s IH]; simpl; [reflexivity|].
  intros H. apply orb_false_elim in H as [Hc Hs].
  rewrite Hc, (IH Hs). reflexivity.
Qed.

Lemma split_slash_app x rest :
  has_slash x = false ->
  split_slash (x +:+ "/" +:+ rest) = x :: split_slash rest.
Proof.
  induction x as [|c x IH]; simpl; [reflexivity|].
  intros H. apply orb_false_elim in H as [Hc Hx].
  rewrite Hc, (IH Hx). reflexivity.
Qed.

(** Splitting what was joined gives the components back. *)
Lemma split_join x l :
  forallb (fun s => negb (has_slash s)) (x :: l) = true ->
  split_slash (join_slash (x :: l)) = x :: l.
Proof.
  revert x. induction l as [|y l IH]; intros x H.
  - simpl in *. rewrite andb_true_r in H. apply negb_true_iff in H.
    now apply split_slash_no_slash.
  - change (join_slash (x :: y :: l)) with (x +:+ "/" +:+ join_slash (y :: l)).
    simpl in H. apply andb_prop in H as [Hx Hl].
    apply negb_true_iff in Hx.
    rewrite (split_slash_app _ _ Hx). f_equal. apply IH. exact Hl.
Qed.

End StrFacts.

(** ** deepmerge: lemmas *)

Module JsFacts.
Import Js.

Lemma obj_get_set_eq k v o : obj_get k (obj_set k v o) = Some v.
Proof.
  induction o as [|[k' v'] o IH]; simpl.
  - now rewrite String.eqb_refl.
  - destruct (String.eqb k k') eqn:Hk; simpl.
    + now rewrite String.eqb_refl.
    + now rewrite Hk.
Qed.

Lemma obj_get_set_ne k k' v o :
  String.eqb k k' = false -> obj_get k (obj_set k' v o) = obj_get k o.
Proof.
  intros Hne. induction o as [|[k2 v2] o IH]; simpl.
  - now rewrite Hne.
  - destruct (String.eqb k' k2) eqn:Hk; simpl.
    + apply String.eqb_eq in Hk. subst k2. now rewrite Hne.
    + now rewrite IH.
Qed.

(** The loop inside [deepmerge] is [mergeObject]. *)
Lemma deepmerge_object tf sf :
  deepmerge (JObj tf) (JObj sf) = JObj (mergeObject (JObj tf) sf tf).
Proof.
  change (mergeObject (JObj tf) sf tf)
    with (mergeObject (JObj tf) sf (own_fields (JObj tf))).
  cbn [deepmerge]. f_equal.
  generalize (own_fields (JObj tf)) as destination.
  induction sf as [|[key sv] rest IH]; intros destination.
  - reflexivity.
  - cbn [mergeObject]. rewrite <- IH. reflexivity.
Qed.

Lemma merge_mergeObject x y : merge x y = mergeObject (JObj x) y x.
Proof. unfold merge. now rewrite deepmerge_object. Qed.

(** A key that is no property of [Object.prototype] is never unsafe. *)
Lemma safe_key target key :
  in_names key object_prototype_names = false ->
  propertyIsUnsafe target key = false.
Proof.
  intros Hp. unfold propertyIsUnsafe, propertyIsOnObject, hasOwnEnumerable.
  destruct target; try reflexivity.
  rewrite Hp, orb_false_r. apply andb_negb_r.
Qed.

(** Keys the source does not have keep the value of the destination. *)
Lemma mergeObject_other target keys destination k :
  (forall key sv, (key, sv) ∈ keys -> String.eqb k key = false) ->
  obj_get k (mergeObject target keys destination) = obj_get k destination.
Proof.
  revert destination.
  induction keys as [|[key sv] rest IH]; intros destination Hk; simpl.
  - reflexivity.
  - rewrite IH by (intros; eapply Hk; right; eassumption).
    assert (Hne : String.eqb k key = false) by (eapply Hk; left).
    destruct (propertyIsUnsafe target key); [reflexivity|].
    destruct (propertyIsOnObject target key && isMergeableObject sv);
      now rewrite obj_get_set_ne.
Qed.

(** A safe key of the source whose value is a primitive has that value in
    the merged object. *)
Lemma mergeObject_primitive target keys destination k v :
  NoDup (fst <$> keys) ->
  (k, v) ∈ keys ->
  isMergeableObject v = false ->
  propertyIsUnsafe target k = false ->
  obj_get k (mergeObject target keys destination) = Some v.
Proof.
  revert destination.
  induction keys as [|[key sv] rest IH]; intros destination Hnd Hin Hprim Hsafe.
  - inversion Hin.
  - simpl in Hnd. apply NoDup_cons in Hnd as [Hfresh Hnd].
    apply elem_of_cons in Hin as [Heq | Hin].
    + injection Heq as <- <-. simpl.
      rewrite Hsafe, Hprim, andb_false_r.
      rewrite mergeObject_other; [apply obj_get_set_eq|].
      intros key' sv' Hin'. apply String.eqb_neq. intros ->.
      apply Hfresh. apply list_elem_of_fmap. now exists (key', sv').
    + simpl. now apply IH.
Qed.

End JsFacts.

(** ** The plugin: theorems *)

Module PluginFacts.
Import Js Plugin.

Section Wrappers.

Context {Rest TypeDirective : Type}.
Variable E : Env.
Variable project : Project.
Variable config : DenoPluginConfig.
Variable host : Host Rest TypeDirective.

(** C9. With [enable] off, each of the six wrapped operations returns what
    the host's own implementation returns on the same arguments; the two
    resolvers stay absent when the host has none. *)
Theorem disabled_is_host :
  enable config = false ->
  wrapped_getCompilationSettings E config host = getCompilationSettings host
  /\ wrapped_getScriptFileNames E config host = getScriptFileNames host
  /\ wrapped_resolveModuleNames E project config host
     = (fun hostResolve (moduleNames : list string) containingFile rest =>
          hostResolve (Some <$> moduleNames) containingFile rest)
       <$> resolveModuleNames host
  /\ wrapped_resolveTypeReferenceDirectives E project config host
     = resolveTypeReferenceDirectives host
  /\ (forall filename,
        wrapped_getSemanticDiagnostics config host filename
        = getSemanticDiagnostics host filename)
  /\ (forall fileName0 position name0 rest,
        wrapped_getCompletionEntryDetails E config host fileName0 position
          name0 rest
        = getCompletionEntryDetails host fileName0 position name0 rest).
Proof.
  intros Hoff.
  unfold wrapped_getCompilationSettings, wrapped_getScriptFileNames,
    wrapped_resolveModuleNames, wrapped_resolveTypeReferenceDirectives,
    wrapped_getSemanticDiagnostics, wrapped_getCompletionEntryDetails.
  rewrite Hoff. cbn [negb].
  repeat split; try reflexivity.
  destruct (resolveTypeReferenceDirectives host); reflexivity.
Qed.

Lemma must_overwrite_keys : NoDup (fst <$> MUST_OVERWRITE_OPTIONS E).
Proof.
  cbn. apply (bool_decide_unpack _). vm_compute. exact I.
Qed.

Lemma must_overwrite_entry k v :
  (k, v) ∈ MUST_OVERWRITE_OPTIONS E ->
  isMergeableObject v = false
  /\ in_names k object_prototype_names = false.
Proof.
  unfold MUST_OVERWRITE_OPTIONS. intros Hin.
  repeat (apply elem_of_cons in Hin as [Heq | Hin];
          [injection Heq as -> ->; split; reflexivity|]).
  inversion Hin.
Qed.

(** C10. With [enable] on, the settings the wrapper returns carry the fixed
    values of [jsx], [module], [moduleResolution], [resolveJsonModule],
    [strict], [noEmit] and [noEmitHelpers], whatever the project's own
    settings are. *)
Theorem must_overwrite_wins :
  enable config = true ->
  let settings := wrapped_getCompilationSettings E config host in
  (forall k v, (k, v) ∈ MUST_OVERWRITE_OPTIONS E -> obj_get k settings = Some v)
  /\ obj_get "jsx" settings = Some (JNum (JsxEmit_React (typescript E)))
  /\ obj_get "module" settings = Some (JNum (ModuleKind_ESNext (typescript E)))
  /\ obj_get "moduleResolution" settings
     = Some (JNum (ModuleResolutionKind_NodeJs (typescript E)))
  /\ obj_get "resolveJsonModule" settings = Some (JBool true)
  /\ obj_get "strict" settings = Some (JBool true)
  /\ obj_get "noEmit" settings = Some (JBool true)
  /\ obj_get "noEmitHelpers" settings = Some (JBool true).
Proof.
  intros Hon settings.
  assert (Hall : forall k v,
             (k, v) ∈ MUST_OVERWRITE_OPTIONS E -> obj_get k settings = Some v).
  { intros k v Hin. subst settings. unfold wrapped_getCompilationSettings.
    rewrite Hon. cbn [negb]. rewrite JsFacts.merge_mergeObject.
    destruct (must_overwrite_entry k v Hin) as [Hprim Hname].
    apply JsFacts.mergeObject_primitive; auto using must_overwrite_keys.
    now apply JsFacts.safe_key. }
  split; [exact Hall|].
  repeat split; apply Hall; unfold MUST_OVERWRITE_OPTIONS;
    repeat first [apply list_elem_of_here | apply list_elem_of_further].
Qed.

Lemma moduleNamesForHost_lookup moduleNames resolvedModules i :
  moduleNamesForHost moduleNames resolvedModules !! i
  = (fun v : option ResolvedModule =>
       match v with
       | Some m => Some (module m)
       | None => moduleNames !! i
       end) <$> resolvedModules !! i.
Proof. unfold moduleNamesForHost. apply list_lookup_imap. Qed.

Lemma resolveModuleNames_enabled_lookup hostResolve moduleNames cf
    (rest : Rest) i :
  let resolvedModules := resolverModules E project config cf moduleNames in
  resolveModuleNames_enabled E project config hostResolve moduleNames cf rest
    !! i
  = cacheFallback E resolvedModules i
    <$> hostResolve (moduleNamesForHost moduleNames resolvedModules) cf rest
        !! i.
Proof. unfold resolveModuleNames_enabled. cbv zeta. apply list_lookup_imap. Qed.

(** C1. Given a host and a Deno resolver that answer one entry per name,
    the wrapped [resolveModuleNames] returns as many entries as it is
    given specifiers, and entry [i] is the resolution of specifier [i]: the
    host is handed, at [i], the module of the Deno resolver's [i]-th result
    or the specifier itself, and the [i]-th answer of the host is what the
    wrapper returns at [i], after the cache fallback with the same [i]-th
    result. *)
Theorem resolveModuleNames_index_aligned hostResolve :
  resolveModuleNames host = Some hostResolve ->
  (forall names cf rest, length (hostResolve names cf rest) = length names) ->
  (forall c m names, length (resolveModules E c m names) = length names) ->
  exists wrapped,
    wrapped_resolveModuleNames E project config host = Some wrapped
    /\ forall moduleNames containingFile rest,
        let resolvedModules :=
          resolverModules E project config containingFile moduleNames in
        let handed := moduleNamesForHost moduleNames resolvedModules in
        length (wrapped moduleNames containingFile rest) = length moduleNames
        /\ forall i specifier,
            moduleNames !! i = Some specifier ->
            if enable config then
              exists resolved hostResult,
                resolvedModules !! i = Some resolved
                /\ handed !! i
                   = Some (Some match resolved with
                                | Some m => module m
                                | None => specifier
                                end)
                /\ hostResolve handed containingFile rest !! i
                   = Some hostResult
                /\ wrapped moduleNames containingFile rest !! i
                   = Some (cacheFallback E resolvedModules i hostResult)
            else
              (Some <$> moduleNames) !! i = Some (Some specifier)
              /\ wrapped moduleNames containingFile rest !! i
                 = hostResolve (Some <$> moduleNames) containingFile rest !! i.
Proof.
  intros Hhost Hlen Hres. unfold wrapped_resolveModuleNames. rewrite Hhost.
  eexists; split; [reflexivity|].
  intros moduleNames containingFile rest. cbv beta.
  set (resolvedModules :=
         resolverModules E project config containingFile moduleNames).
  set (handed := moduleNamesForHost moduleNames resolvedModules).
  assert (Hrm : length resolvedModules = length moduleNames)
    by apply Hres.
  assert (Hhanded : length handed = length moduleNames).
  { unfold handed, moduleNamesForHost. now rewrite length_imap. }
  destruct (enable config) eqn:Hen; cbn [negb].
  - split.
    + unfold resolveModuleNames_enabled. fold resolvedModules. fold handed.
      now rewrite length_imap, Hlen.
    + intros i specifier Hi.
      assert (Hlt : (i < length moduleNames)%nat)
        by (eapply lookup_lt_Some; eassumption).
      destruct (lookup_lt_is_Some_2 resolvedModules i) as [resolved Hr];
        [lia|].
      destruct (lookup_lt_is_Some_2 (hostResolve handed containingFile rest) i)
        as [hostResult Hh]; [rewrite Hlen; lia|].
      exists resolved, hostResult. repeat split; try assumption.
      * unfold handed. rewrite moduleNamesForHost_lookup, Hr. cbn.
        destruct resolved; [reflexivity|]. now rewrite Hi.
      * rewrite resolveModuleNames_enabled_lookup. cbv zeta.
        fold resolvedModules. fold handed. now rewrite Hh.
  - split.
    + now rewrite Hlen, length_fmap.
    + intros i specifier Hi. split; [|reflexivity].
      now rewrite list_lookup_fmap, Hi.
Qed.

(** C8. With [enable] on: where the host answers [undefined] at index [i]
    and the Deno resolver's [i]-th result is a module whose file path is
    absolute and exists, the wrapper returns at [i] a JavaScript module
    backed by that file; in every other case it returns the host's answer at
    [i] unchanged. *)
Theorem cache_fallback_at_index hostResolve moduleNames containingFile rest :
  enable config = true ->
  resolveModuleNames host = Some hostResolve ->
  let resolvedModules :=
    resolverModules E project config containingFile moduleNames in
  let hostResults :=
    hostResolve (moduleNamesForHost moduleNames resolvedModules)
      containingFile rest in
  exists wrapped,
    wrapped_resolveModuleNames E project config host = Some wrapped
    /\ forall i v,
        hostResults !! i = Some v ->
        let result := wrapped moduleNames containingFile rest !! i in
        (forall cacheModule,
            v = None ->
            resolvedModules !! i = Some (Some cacheModule) ->
            path_isAbsolute E (filepath cacheModule) = true ->
            pathExistsSync E (filepath cacheModule) = true ->
            result
            = Some (Some {| resolvedFileName := filepath cacheModule;
                            extension := Some (Extension_Js (typescript E));
                            isExternalLibraryImport := Some false |}))
        /\ (is_Some v -> result = Some v)
        /\ (resolvedModules !! i = None \/ resolvedModules !! i = Some None ->
            result = Some v)
        /\ (forall cacheModule,
              resolvedModules !! i = Some (Some cacheModule) ->
              path_isAbsolute E (filepath cacheModule)
              && pathExistsSync E (filepath cacheModule) = false ->
              result = Some v).
Proof.
  intros Hon Hhost resolvedModules hostResults.
  unfold wrapped_resolveModuleNames. rewrite Hhost, Hon. cbn [negb].
  eexists; split; [reflexivity|].
  intros i v Hv. cbv beta zeta.
  rewrite resolveModuleNames_enabled_lookup. cbv zeta.
  fold resolvedModules. fold hostResults. rewrite Hv. cbn [fmap option_fmap option_map].
  unfold cacheFallback. repeat split.
  - intros cacheModule -> Hr Habs Hex. now rewrite Hr, Habs, Hex.
  - intros [x ->]. reflexivity.
  - intros [Hr | Hr]; rewrite Hr; now destruct v.
  - intros cacheModule Hr Hno. rewrite Hr, Hno. now destruct v.
Qed.

(** C6. With [enable] on: when the containing file, as the project's
    [realpath] gives it, starts with [untitled:], the resolver of both
    wrappers is created for the project's current directory. *)
Theorem untitled_uses_project_directory containingFile :
  enable config = true ->
  Str.starts_with "untitled:" (realpathOf project containingFile) = true ->
  let directory := getCurrentDirectory project in
  let importMap := importMapsFilepath E project config in
  realContainingFile project containingFile = directory
  /\ (forall hostResolve,
        resolveModuleNames host = Some hostResolve ->
        exists wrapped,
          wrapped_resolveModuleNames E project config host = Some wrapped
          /\ forall moduleNames rest,
              let resolvedModules :=
                resolveModules E directory importMap moduleNames in
              wrapped moduleNames containingFile rest
              = imap (cacheFallback E resolvedModules)
                  (hostResolve (moduleNamesForHost moduleNames resolvedModules)
                     containingFile rest))
  /\ (forall hostResolve,
        resolveTypeReferenceDirectives host = Some hostResolve ->
        exists wrapped,
          wrapped_resolveTypeReferenceDirectives E project config host
          = Some wrapped
          /\ forall typeDirectiveNames rest,
              wrapped typeDirectiveNames containingFile rest
              = hostResolve
                  (module
                   <$> omap (fun v => v)
                         (resolveModules E directory importMap
                            typeDirectiveNames))
                  containingFile rest).
Proof.
  intros Hon Huntitled directory importMap.
  assert (Hreal : realContainingFile project containingFile = directory).
  { unfold realContainingFile. cbv zeta. now rewrite Huntitled. }
  split; [exact Hreal|]. split.
  - intros hostResolve Hhost. unfold wrapped_resolveModuleNames.
    rewrite Hhost, Hon. cbn [negb]. eexists; split; [reflexivity|].
    intros moduleNames rest. cbv zeta.
    unfold resolveModuleNames_enabled, resolverModules. now rewrite Hreal.
  - intros hostResolve Hhost. unfold wrapped_resolveTypeReferenceDirectives.
    rewrite Hhost, Hon. cbn [negb]. eexists; split; [reflexivity|].
    intros typeDirectiveNames rest.
    unfold typeDirectiveNamesForHost, resolverModules. now rewrite Hreal.
Qed.

(** The list [resolveTypeReferenceDirectives] hands to the host has one
    name per resolved entry only. *)
Lemma typeDirectiveNamesForHost_length containingFile typeDirectiveNames :
  length (typeDirectiveNamesForHost E project config containingFile
            typeDirectiveNames)
  = length (omap (fun v => v)
              (resolverModules E project config containingFile
                 typeDirectiveNames)).
Proof. unfold typeDirectiveNamesForHost. apply length_fmap. Qed.

Lemma omap_id_length {A} (l : list (option A)) :
  (length (omap (fun v => v) l) <= length l)%nat.
Proof.
  induction l as [|[x|] l IH]; cbn; lia.
Qed.

Lemma omap_id_shorter {A} (l : list (option A)) :
  None ∈ l -> (length (omap (fun v => v) l) < length l)%nat.
Proof.
  induction l as [|[x|] l IH]; intros Hin.
  - inversion Hin.
  - apply elem_of_cons in Hin as [Heq | Hin]; [discriminate|].
    cbn. specialize (IH Hin). lia.
  - cbn. pose proof (omap_id_length l). lia.
Qed.

(** One unresolved directive is enough for the host to be asked about fewer
    names than the wrapper was given. *)
Lemma typeDirectives_shorter containingFile typeDirectiveNames :
  (forall c m names, length (resolveModules E c m names) = length names) ->
  None ∈ resolverModules E project config containingFile typeDirectiveNames ->
  (length (typeDirectiveNamesForHost E project config containingFile
             typeDirectiveNames)
   < length typeDirectiveNames)%nat.
Proof.
  intros Hres Hin. rewrite typeDirectiveNamesForHost_length.
  pose proof (omap_id_shorter _ Hin) as Hlt.
  unfold resolverModules in Hlt at 2. now rewrite Hres in Hlt.
Qed.

End Wrappers.

(** C2, on the demo project: of the two directives [node] (which the Deno
    resolver does not know) and a remote declaration file, the host is
    asked about the second only, so the wrapper returns one entry for two
    names and that entry sits at index 0, the index of [node]. *)
Theorem typeDirectives_drop_unresolved :
  let names := ["node"; "https://deno.land/std/fs/mod.ts"] in
  exists wrapped,
    wrapped_resolveTypeReferenceDirectives Demo.env Demo.project Demo.enabled
      Demo.host = Some wrapped
    /\ typeDirectiveNamesForHost Demo.env Demo.project Demo.enabled
         "/proj/main.ts" names
       = ["https://deno.land/std/fs/mod.ts"]
    /\ length (wrapped names "/proj/main.ts" tt) = 1%nat
    /\ wrapped names "/proj/main.ts" tt !! 0%nat
       = Some (Some "https://deno.land/std/fs/mod.ts").
Proof.
  intros names. eexists; split; [reflexivity|].
  repeat split; vm_compute; reflexivity.
Qed.

(** The theorems at the demo project. *)

Lemma disabled_is_host_witness :
  enable Demo.disabled = false
  /\ wrapped_getCompilationSettings Demo.env Demo.disabled Demo.host
     = getCompilationSettings Demo.host
  /\ wrapped_getScriptFileNames Demo.env Demo.disabled Demo.host
     = ["/proj/main.ts"].
Proof.
  pose proof (disabled_is_host Demo.env Demo.project Demo.disabled Demo.host
                eq_refl) as (Hsettings & Hfiles & _).
  split; [reflexivity|]. split; [exact Hsettings | exact Hfiles].
Defined.

Lemma must_overwrite_wins_witness :
  enable Demo.enabled = true
  /\ obj_get "strict" (getCompilationSettings Demo.host) = Some (JBool false)
  /\ obj_get "strict"
       (wrapped_getCompilationSettings Demo.env Demo.enabled Demo.host)
     = Some (JBool true).
Proof.
  pose proof (must_overwrite_wins Demo.env Demo.enabled Demo.host eq_refl)
    as (_ & _ & _ & _ & _ & Hstrict & _).
  split; [reflexivity|]. split; [reflexivity | exact Hstrict].
Defined.

Lemma resolveModuleNames_index_aligned_witness :
  exists wrapped,
    wrapped_resolveModuleNames Demo.env Demo.project Demo.enabled Demo.host
    = Some wrapped
    /\ length (wrapped ["./local.ts"; "https://deno.land/std/fs/mod.ts"; "lodash"]
                 "/proj/main.ts" tt) = 3%nat.
Proof.
  destruct (resolveModuleNames_index_aligned Demo.env Demo.project
              Demo.enabled Demo.host _ eq_refl
              (fun names _ _ => length_fmap Demo.hostModule names)
              (fun _ _ names => length_fmap Demo.resolveOne names))
    as (wrapped & Hwrapped & Hall).
  exists wrapped. split; [exact Hwrapped|].
  exact (proj1 (Hall ["./local.ts"; "https://deno.land/std/fs/mod.ts"; "lodash"]
                  "/proj/main.ts" tt)).
Defined.

Lemma cache_fallback_at_index_witness :
  exists wrapped,
    wrapped_resolveModuleNames Demo.env Demo.project Demo.enabled Demo.host
    = Some wrapped
    /\ wrapped ["https://deno.land/std/fs/mod.ts"] "/proj/main.ts" tt !! 0%nat
       = Some (Some {| resolvedFileName :=
                         "/deno/deps/https/deno.land/std/fs/mod.ts";
                       extension := Some ".js";
                       isExternalLibraryImport := Some false |}).
Proof.
  destruct (cache_fallback_at_index Demo.env Demo.project Demo.enabled
              Demo.host _ ["https://deno.land/std/fs/mod.ts"] "/proj/main.ts"
              tt eq_refl eq_refl)
    as (wrapped & Hwrapped & Hall).
  exists wrapped. split; [exact Hwrapped|].
  exact (proj1 (Hall 0%nat None eq_refl) _ eq_refl eq_refl eq_refl eq_refl).
Defined.

Lemma untitled_uses_project_directory_witness :
  Str.starts_with "untitled:" (realpathOf Demo.project "untitled:Untitled-1")
  = true
  /\ realContainingFile Demo.project "untitled:Untitled-1" = "/proj".
Proof.
  split; [reflexivity|].
  exact (proj1 (untitled_uses_project_directory Demo.env Demo.project
                  Demo.enabled Demo.host "untitled:Untitled-1" eq_refl
                  eq_refl)).
Defined.

End PluginFacts.

(** ** The references provider: theorems *)

Module RefsFacts.
Import Refs.

Section Provider.

Context {TextDocument : Type}.
Variable S : Services TextDocument.

(** On a range of one line the handler's four comparisons say that the
    position is inside the range. *)
Lemma positionHits_inside position h :
  on_one_line h -> positionHits position h = inside position (contentRange h).
Proof.
  unfold on_one_line, positionHits, inside, position_leb. intros Hline.
  rewrite <- Hline.
  set (l := line (range_start (contentRange h))).
  destruct (Z.leb_spec l (line position)), (Z.leb_spec (line position) l),
    (Z.ltb_spec l (line position)), (Z.ltb_spec (line position) l),
    (Z.eqb_spec l (line position)), (Z.eqb_spec (line position) l);
    try lia; cbn;
    repeat match goal with
           | |- context [(?a <=? ?b)] => destruct (a <=? b)
           end; reflexivity.
Qed.

(** The loop only appends. *)
Lemma visit_all position hints locations :
  Forall on_one_line hints ->
  fold_left (visitHint S position) hints locations
  = locations ++ mjoin (locationsOf S position <$> hints).
Proof.
  intros Hlines. revert locations.
  induction Hlines as [|h hints Hh _ IH]; intros locations; cbn.
  - now rewrite app_nil_r.
  - rewrite IH. unfold visitHint, locationsOf.
    rewrite (positionHits_inside position h Hh).
    destruct (inside position (contentRange h)); cbn;
      [destruct (pathExists S (filepath h)); cbn|];
      now rewrite <- ?app_assoc.
Qed.

(** C5. For a known document whose pragma ranges each lie on one line, the
    handler returns, in the order of the pragmas, one location at
    (0,0)-(0,0) of the named file's URI for each pragma whose range holds
    the position and whose file exists, and nothing for a pragma whose
    range does not hold the position or whose file does not exist. *)
Theorem references_at_pragma textDocument_uri position document :
  documents_get S textDocument_uri = Some document ->
  let hints := getDenoTypesHintsFromDocument S document in
  Forall on_one_line hints ->
  onReferences S textDocument_uri position
  = Some (mjoin (locationsOf S position <$> hints))
  /\ (forall h, hints = [h] ->
        onReferences S textDocument_uri position
        = Some (locationsOf S position h))
  /\ forall h,
      (inside position (contentRange h) = true ->
       pathExists S (filepath h) = true ->
       locationsOf S position h
       = [{| uri := URI_file S (filepath h);
             range := {| range_start := {| line := 0; character := 0 |};
                         range_end := {| line := 0; character := 0 |} |} |}])
      /\ (inside position (contentRange h) = false ->
          locationsOf S position h = [])
      /\ (pathExists S (filepath h) = false ->
          locationsOf S position h = []).
Proof.
  intros Hdoc hints Hlines.
  assert (Hall : onReferences S textDocument_uri position
                 = Some (mjoin (locationsOf S position <$> hints))).
  { unfold onReferences. rewrite Hdoc. fold hints.
    now rewrite (visit_all position hints [] Hlines). }
  split; [exact Hall|]. split.
  - intros h Hone. rewrite Hall, Hone. cbn. now rewrite app_nil_r.
  - intros h. unfold locationsOf. repeat split.
    + intros -> ->. reflexivity.
    + intros ->. reflexivity.
    + intros ->. now rewrite andb_false_r.
Qed.

End Provider.

Lemma references_at_pragma_witness :
  onReferences Demo.services "file:///proj/main.ts"
    {| line := 0; character := 20 |}
  = Some [{| uri := "file:///proj/types.d.ts";
             range := Range_create 0 0 0 0 |}].
Proof.
  exact (proj1 (references_at_pragma Demo.services "file:///proj/main.ts"
                  {| line := 0; character := 20 |} _ eq_refl
                  (Forall_cons_2 on_one_line Demo.typesHint [] eq_refl
                     (Forall_nil_2 on_one_line)))).
Defined.

(** Outside the columns of the path literal the demo document has no
    location. *)
Example references_outside :
  onReferences Demo.services "file:///proj/main.ts"
    {| line := 0; character := 3 |} = Some [].
Proof. reflexivity. Qed.

(** On a range of two lines the four comparisons are not containment: the
    position (1,7) lies between (1,5) and (2,3) and is not hit. *)
Example box_is_not_containment :
  let h := {| filepath := "/proj/types.d.ts";
              contentRange := Range_create 1 5 2 3 |} in
  let position := {| line := 1; character := 7 |} in
  inside position (contentRange h) = true
  /\ positionHits position h = false.
Proof. split; reflexivity. Qed.

End RefsFacts.

(** ** The import-map engine: theorems *)

Module ImportMapFacts.
Import ImportMap.

Section Selection.

Context {A : Type}.
Variable matches : string -> bool.

(** Nothing is selected only when no entry matches. *)
Lemma longest_match_none (entries : list (string * A)) :
  longest_match matches entries = None ->
  forall k v, (k, v) ∈ entries -> matches k = false.
Proof.
  induction entries as [|[k0 v0] rest IH]; intros Hnone k v Hin.
  - inversion Hin.
  - cbn [longest_match] in Hnone. destruct (matches k0) eqn:Hm.
    + destruct (longest_match matches rest) as [[k' v']|];
        [destruct (String.length k0 <? String.length k')%nat|]; discriminate.
    + apply elem_of_cons in Hin as [Heq | Hin].
      * now injection Heq as -> ->.
      * now apply (IH Hnone k v).
Qed.

(** The selected entry is the longest that matches, and the first declared
    among the longest. *)
Lemma longest_match_some (entries : list (string * A)) k v :
  longest_match matches entries = Some (k, v) ->
  exists i, entries !! i = Some (k, v) /\ longest_first matches entries i k.
Proof.
  revert k v. induction entries as [|[k0 v0] rest IH]; intros k v Hsel.
  - discriminate.
  - cbn [longest_match] in Hsel. destruct (matches k0) eqn:Hm.
    + destruct (longest_match matches rest) as [[k' v']|] eqn:Hlater.
      * destruct (IH k' v' eq_refl) as (i & Hi & Hk' & Hmax).
        destruct (Nat.ltb_spec (String.length k0) (String.length k')).
        -- injection Hsel as <- <-. exists (Datatypes.S i).
           split; [exact Hi|]. split; [exact Hk'|].
           intros [|j] k2 v2 Hj Hm2.
           ++ injection Hj as <- <-. now left.
           ++ destruct (Hmax j k2 v2 Hj Hm2) as [|[? ?]]; [now left|].
              right. split; [assumption|lia].
        -- injection Hsel as <- <-. exists 0%nat.
           split; [reflexivity|]. split; [exact Hm|].
           intros [|j] k2 v2 Hj Hm2.
           ++ injection Hj as <- <-. right. split; [reflexivity|lia].
           ++ destruct (Hmax j k2 v2 Hj Hm2) as [|[? ?]]; [left; lia|].
              destruct (Nat.eq_dec (String.length k2) (String.length k0));
                [right; split; [assumption|lia] | left; lia].
      * injection Hsel as <- <-. exists 0%nat.
        split; [reflexivity|]. split; [exact Hm|].
        intros [|j] k2 v2 Hj Hm2.
        -- injection Hj as <- <-. right. split; [reflexivity|lia].
        -- cbn in Hj.
           assert (Hno : matches k2 = false).
           { apply (longest_match_none rest Hlater k2 v2).
             apply list_elem_of_lookup. now exists j. }
           congruence.
    + destruct (IH k v Hsel) as (i & Hi & Hk & Hmax).
      exists (Datatypes.S i). split; [exact Hi|]. split; [exact Hk|].
      intros [|j] k2 v2 Hj Hm2.
      * injection Hj as <- <-. congruence.
      * destruct (Hmax j k2 v2 Hj Hm2) as [|[? ?]]; [now left|].
        right. split; [assumption|lia].
Qed.

End Selection.

(** C3. The scope selected for a referrer and the key selected for a
    specifier are each the longest prefix that matches, the first declared
    one when two are as long; nothing is selected only when nothing
    matches; and with imports [a/ -> /x/] and [a/b -> /y], [a/b] resolves
    to [/y] and [a/c] to [/x/c]. *)
Theorem import_map_longest_prefix :
  (forall map referrerURL p scoped,
      select_scope map referrerURL = Some (p, scoped) ->
      exists i,
        scopes map !! i = Some (p, scoped)
        /\ longest_first (fun q => Str.starts_with q referrerURL)
             (scopes map) i p)
  /\ (forall map referrerURL,
        select_scope map referrerURL = None ->
        forall p scoped,
          (p, scoped) ∈ scopes map -> Str.starts_with p referrerURL = false)
  /\ (forall m specifier key target,
        select_key m specifier = Some (key, target) ->
        exists i,
          m !! i = Some (key, target)
          /\ longest_first (key_matches specifier) m i key)
  /\ (forall m specifier,
        select_key m specifier = None ->
        forall key target,
          (key, target) ∈ m -> key_matches specifier key = false)
  /\ (forall referrerURL,
        resolve Demo.prefixMap "a/b" referrerURL = Some "/y"
        /\ resolve Demo.prefixMap "a/c" referrerURL = Some "/x/c").
Proof.
  repeat split.
  - intros map referrerURL p scoped. apply longest_match_some.
  - intros map referrerURL. apply longest_match_none.
  - intros m specifier key target. apply longest_match_some.
  - intros m specifier. apply longest_match_none.
Qed.

Lemma import_map_longest_prefix_witness :
  select_key [("a/", "/x/"); ("a/b", "/y"); ("a/b", "/z")] "a/b"
  = Some ("a/b", "/y")
  /\ exists i,
      [("a/", "/x/"); ("a/b", "/y"); ("a/b", "/z")] !! i = Some ("a/b", "/y")
      /\ longest_first (key_matches "a/b")
           [("a/", "/x/"); ("a/b", "/y"); ("a/b", "/z")] i "a/b".
Proof.
  split; [reflexivity|].
  exact (proj1 (proj2 (proj2 import_map_longest_prefix))
           [("a/", "/x/"); ("a/b", "/y"); ("a/b", "/z")] "a/b" "a/b" "/y"
           eq_refl).
Defined.

(** The spec's scope example: under [/pkg/] the scoped target, elsewhere the
    top-level one. *)
Example scope_precedence :
  resolve Demo.scopedMap "a" "/pkg/mod.ts" = Some "/scoped"
  /\ resolve Demo.scopedMap "a" "/other/mod.ts" = Some "/top".
Proof. split; reflexivity. Qed.


Section Loading.

Variable readFile : string -> option string.
Variable JSON_parse : string -> option Js.JsValue.


End Loading.


End ImportMapFacts.

(** ** The cache path mapper: theorems *)

Module CacheFacts.
Import Cache.

Section Mapper.

Variable cacheRoot : string.

Lemma accepts_components u :
  accepts u = true ->
  recognized (scheme u) = true
  /\ String.eqb (authority u) "" = false
  /\ forallb no_slash (scheme u :: authority u :: segments u) = true.
Proof.
  unfold accepts. intros H.
  apply andb_prop in H as [H Hsegs]. apply andb_prop in H as [H Hauth].
  apply andb_prop in H as [Hscheme Hne]. apply negb_true_iff in Hne.
  repeat split; try assumption.
  cbn [forallb]. rewrite Hauth, Hsegs, !andb_true_r.
  unfold recognized in Hscheme. apply orb_prop in Hscheme as [Hs | Hs];
    apply String.eqb_eq in Hs; rewrite Hs; reflexivity.
Qed.

Lemma path_round_trip u :
  accepts u = true -> pathToUrl cacheRoot (urlToPath cacheRoot u) = Some u.
Proof.
  intros Hacc. destruct (accepts_components u Hacc) as (Hscheme & Hauth & Hns).
  unfold pathToUrl, urlToPath.
  rewrite <- StrFacts.append_assoc, StrFacts.strip_prefix_app.
  rewrite (StrFacts.split_join _ _ Hns), Hscheme, Hauth. cbn.
  now destruct u.
Qed.

(** C4. [urlToPath] is defined on every URL; on the URLs the mapper accepts
    [pathToUrl] gives the URL back, and no two of them share a path. *)
Theorem cache_mapping_round_trip :
  (forall u, exists p, urlToPath cacheRoot u = p)
  /\ (forall u,
        accepts u = true ->
        pathToUrl cacheRoot (urlToPath cacheRoot u) = Some u)
  /\ (forall u v,
        accepts u = true -> accepts v = true ->
        urlToPath cacheRoot u = urlToPath cacheRoot v -> u = v).
Proof.
  split; [intros u; eexists; reflexivity|].
  split; [exact path_round_trip|].
  intros u v Hu Hv Hsame.
  pose proof (path_round_trip u Hu) as Hru.
  pose proof (path_round_trip v Hv) as Hrv.
  rewrite Hsame in Hru. congruence.
Qed.

End Mapper.

Lemma cache_mapping_round_trip_witness :
  accepts Demo.stdFs = true
  /\ urlToPath "/deno/deps" Demo.stdFs
     = "/deno/deps/https/deno.land/std/fs/mod.ts"
  /\ pathToUrl "/deno/deps" (urlToPath "/deno/deps" Demo.stdFs)
     = Some Demo.stdFs.
Proof.
  split; [reflexivity|]. split; [reflexivity|].
  exact (proj1 (proj2 (cache_mapping_round_trip "/deno/deps")) Demo.stdFs
           eq_refl).
Defined.

(** A path outside the cache root names no URL. *)
Example outside_cache_root :
  pathToUrl "/deno/deps" "/proj/main.ts" = None.
Proof. reflexivity. Qed.

End CacheFacts.

(** ** deepmerge: what a key of the source becomes *)

Module JsMore.
Import Js.

Lemma obj_get_none k o :
  obj_get k o = None ->
  forall key sv, (key, sv) ∈ o -> String.eqb k key = false.
Proof.
  induction o as [|[k' v'] o IH]; intros Hnone key sv Hin.
  - inversion Hin.
  - cbn in Hnone. destruct (String.eqb k k') eqn:Hk; [discriminate|].
    apply elem_of_cons in Hin as [Heq | Hin].
    + now injection Heq as -> ->.
    + now apply (IH Hnone key sv).
Qed.


Lemma obj_has_set k k' v o :
  obj_has k (obj_set k' v o) = obj_has k o || String.eqb k k'.
Proof.
  unfold obj_has. destruct (String.eqb k k') eqn:Hk.
  - apply String.eqb_eq in Hk. subst k'. rewrite JsFacts.obj_get_set_eq.
    now rewrite orb_true_r.
  - rewrite (JsFacts.obj_get_set_ne _ _ _ _ Hk). now rewrite orb_false_r.
Qed.

Lemma obj_has_elem k sv o : (k, sv) ∈ o -> obj_has k o = true.
Proof.
  unfold obj_has. induction o as [|[k' v'] o IH]; intros Hin.
  - inversion Hin.
  - cbn. destruct (String.eqb k k') eqn:Hk; [reflexivity|].
    apply elem_of_cons in Hin as [Heq | Hin]; [|now apply IH].
    injection Heq as -> ->. now rewrite String.eqb_refl in Hk.
Qed.

(** Merging removes no key of the destination. *)
Lemma mergeObject_keeps target keys destination k :
  obj_has k destination = true ->
  obj_has k (mergeObject target keys destination) = true.
Proof.
  revert destination.
  induction keys as [|[key sv] rest IH]; intros destination Hk;
    [exact Hk|].
  cbn [mergeObject]. apply IH.
  destruct (propertyIsUnsafe target key); [exact Hk|].
  destruct (propertyIsOnObject target key && isMergeableObject sv);
    now rewrite obj_has_set, Hk.
Qed.

(** Merging adds the keys of the source only. *)
Lemma mergeObject_adds target keys destination k :
  obj_has k (mergeObject target keys destination) = true ->
  obj_has k destination = true \/ exists sv, (k, sv) ∈ keys.
Proof.
  revert destination.
  induction keys as [|[key sv] rest IH]; intros destination Hk;
    [now left|].
  cbn [mergeObject] in Hk. apply IH in Hk as [Hk | (sv' & Hin)].
  - destruct (propertyIsUnsafe target key); [now left|].
    destruct (propertyIsOnObject target key && isMergeableObject sv);
      rewrite obj_has_set in Hk;
      (apply orb_prop in Hk as [Hk | Hk]; [now left|];
       apply String.eqb_eq in Hk; subst key; right; exists sv;
       apply list_elem_of_here).
  - right. exists sv'. now apply list_elem_of_further.
Qed.

(** A safe key of the source is a key of the merged object. *)
Lemma mergeObject_has_source target keys destination k sv :
  (k, sv) ∈ keys ->
  propertyIsUnsafe target k = false ->
  obj_has k (mergeObject target keys destination) = true.
Proof.
  revert destination.
  induction keys as [|[key sv'] rest IH]; intros destination Hin Hsafe.
  - inversion Hin.
  - cbn [mergeObject]. apply elem_of_cons in Hin as [Heq | Hin].
    + injection Heq as <- <-. apply mergeObject_keeps. rewrite Hsafe.
      destruct (propertyIsOnObject target k && isMergeableObject sv);
        now rewrite obj_has_set, String.eqb_refl, orb_true_r.
    + now apply IH.
Qed.

End JsMore.

(** ** The plugin: the enabled branches *)

Module PluginMore.
Import Js Plugin.

Section Enabled.

Context {Rest TypeDirective : Type}.
Variable E : Env.
Variable project : Project.
Variable config : DenoPluginConfig.
Variable host : Host Rest TypeDirective.

Lemma settings_unforced k :
  enable config = true ->
  obj_get k (MUST_OVERWRITE_OPTIONS E) = None ->
  obj_get k (wrapped_getCompilationSettings E config host)
  = obj_get k (mergeObject (JObj (DEFAULT_OPTIONS E))
                 (getCompilationSettings host) (DEFAULT_OPTIONS E)).
Proof.
  intros Hon Hfree. unfold wrapped_getCompilationSettings.
  rewrite Hon. cbn [negb]. rewrite !JsFacts.merge_mergeObject.
  apply JsFacts.mergeObject_other. now apply JsMore.obj_get_none.
Qed.


(** With [enable] on, a key the project does not set and that is not
    forced has the value of [DEFAULT_OPTIONS], and no value when the
    defaults have none. *)
Theorem default_setting_kept k :
  enable config = true ->
  obj_get k (getCompilationSettings host) = None ->
  obj_get k (MUST_OVERWRITE_OPTIONS E) = None ->
  obj_get k (wrapped_getCompilationSettings E config host)
  = obj_get k (DEFAULT_OPTIONS E).
Proof.
  intros Hon Hproject Hfree.
  rewrite (settings_unforced k Hon Hfree).
  apply JsFacts.mergeObject_other. now apply JsMore.obj_get_none.
Qed.

(** With [enable] on, the settings have every key of [DEFAULT_OPTIONS]
    and every key of the project that is no property of
    [Object.prototype], and no key that neither of them has. *)
Theorem settings_keys k :
  enable config = true ->
  let settings := wrapped_getCompilationSettings E config host in
  (obj_has k (DEFAULT_OPTIONS E) = true -> obj_has k settings = true)
  /\ (obj_has k (getCompilationSettings host) = true ->
      in_names k object_prototype_names = false ->
      obj_has k settings = true)
  /\ (obj_has k settings = true ->
      obj_has k (DEFAULT_OPTIONS E) = true
      \/ obj_has k (getCompilationSettings host) = true).
Proof.
  intros Hon settings. subst settings. unfold wrapped_getCompilationSettings.
  rewrite Hon. cbn [negb]. rewrite !JsFacts.merge_mergeObject.
  split; [|split].
  - intros Hdef. now do 2 apply JsMore.mergeObject_keeps.
  - intros Hproject Hname. apply JsMore.mergeObject_keeps.
    unfold obj_has in Hproject.
    destruct (obj_get k (getCompilationSettings host)) as [v|] eqn:Hget;
      [|discriminate].
    assert (Hin : exists sv, (k, sv) ∈ getCompilationSettings host).
    { clear Hproject. induction (getCompilationSettings host)
        as [|[k' v'] o IH]; [discriminate|].
      cbn in Hget. destruct (String.eqb_spec k k') as [->|Hne].
      - exists v'. apply list_elem_of_here.
      - destruct (IH Hget) as (sv & Hsv). exists sv.
        now apply list_elem_of_further. }
    destruct Hin as (sv & Hin).
    apply (JsMore.mergeObject_has_source _ _ _ k sv Hin).
    now apply JsFacts.safe_key.
  - intros Hk. apply JsMore.mergeObject_adds in Hk as [Hk | (sv & Hin)].
    + apply JsMore.mergeObject_adds in Hk as [Hk | (sv & Hin)];
        [now left|]. right. now apply (JsMore.obj_has_elem k sv).
    + left. unfold MUST_OVERWRITE_OPTIONS in Hin.
      repeat (apply elem_of_cons in Hin as [Heq | Hin];
              [injection Heq as -> _; reflexivity|]).
      inversion Hin.
Qed.

Lemma filter_sublist {A} (f : A -> bool) (l : list A) :
  List.filter f l `sublist_of` l.
Proof.
  induction l as [|x l IH]; cbn; [constructor|].
  destruct (f x); now constructor.
Qed.

(** With [enable] on, the diagnostics returned are the host's without
    those of code 2691 or 1103: none of these is returned, every other one
    is, and the order is the host's. *)
Theorem diagnostics_without_ignored filename :
  enable config = true ->
  let diagnostics := getSemanticDiagnostics host filename in
  let result := wrapped_getSemanticDiagnostics config host filename in
  (forall d, d ∈ result <-> d ∈ diagnostics /\ code d <> 2691 /\ code d <> 1103)
  /\ result `sublist_of` diagnostics
  /\ (length result <= length diagnostics)%nat.
Proof.
  intros Hon diagnostics result. subst result.
  unfold wrapped_getSemanticDiagnostics. rewrite Hon. cbn [negb].
  fold diagnostics.
  split; [|split; [apply filter_sublist | apply List.filter_length_le]].
  intros d. rewrite list_elem_of_In, List.filter_In, <- list_elem_of_In.
  unfold ignoreCodeMapInDeno.
  destruct (Z.eqb_spec (code d) 2691), (Z.eqb_spec (code d) 1103); cbn;
    intuition congruence.
Qed.

(** With [enable] on, the script file names are the host's, each at its
    index, followed by the Deno declaration file and nothing else. *)
Theorem script_files_then_declarations :
  enable config = true ->
  let scriptFileNames := getScriptFileNames host in
  let result := wrapped_getScriptFileNames E config host in
  length result = Datatypes.S (length scriptFileNames)
  /\ (forall i, (i < length scriptFileNames)%nat ->
        result !! i = scriptFileNames !! i)
  /\ result !! length scriptFileNames = Some (getDenoDts E).
Proof.
  intros Hon scriptFileNames result. subst result.
  unfold wrapped_getScriptFileNames. rewrite Hon. cbn.
  fold scriptFileNames. repeat split.
  - rewrite length_app. cbn. lia.
  - intros i Hi. now apply lookup_app_l.
  - now rewrite list_lookup_middle.
Qed.

(** When the host hands out one array at every call, that array holds the
    Deno declaration file once more after every call made with [enable]
    on, and is left as it is by calls made with [enable] off. *)
Theorem shared_array_grows n store :
  SharedArray.afterCalls E config host n store
  = if enable config then store ++ replicate n (getDenoDts E) else store.
Proof.
  revert store. induction n as [|n IH]; intros store.
  - cbn. destruct (enable config); [now rewrite app_nil_r | reflexivity].
  - cbn [SharedArray.afterCalls]. rewrite IH.
    unfold SharedArray.call, wrapped_getScriptFileNames. cbn.
    destruct (enable config); cbn; [|reflexivity].
    now rewrite <- app_assoc.
Qed.

(** The path the resolver is created with is the project's directory or
    the containing file as [realpath] gives it, and starts with
    [untitled:] only if the project's directory does; without that prefix
    the containing file is used (through [realpath] when there is one). *)
Theorem resolver_containing_file containingFile :
  (Str.starts_with "untitled:" (realpathOf project containingFile) = false ->
   realContainingFile project containingFile
   = realpathOf project containingFile)
  /\ (realpath project = None ->
      Str.starts_with "untitled:" containingFile = false ->
      realContainingFile project containingFile = containingFile)
  /\ (Str.starts_with "untitled:" (realContainingFile project containingFile)
      = true ->
      Str.starts_with "untitled:" (getCurrentDirectory project) = true).
Proof.
  unfold realContainingFile. cbv zeta. repeat split.
  - now intros ->.
  - intros Hnone Hplain. unfold realpathOf. now rewrite Hnone, Hplain.
  - destruct (Str.starts_with "untitled:" (realpathOf project containingFile))
      eqn:Hreal; [trivial|]. intros Habs. congruence.
Qed.

(** The import-map path handed to the resolver: none when [import_map] is
    unset or empty; the configured path when it is absolute; otherwise the
    path resolved against the project's directory. With a [path.resolve]
    that returns absolute paths, it is absolute whenever there is one. *)
Theorem import_map_path_absolute :
  (forall base p, path_isAbsolute E (path_resolve E base p) = true) ->
  (importMapsFilepath E project config = None <->
   import_map config = None \/ import_map config = Some "")
  /\ (forall m, importMapsFilepath E project config = Some m ->
        path_isAbsolute E m = true)
  /\ (forall m, import_map config = Some m -> path_isAbsolute E m = true ->
        m <> "" -> importMapsFilepath E project config = Some m).
Proof.
  intros Habs. unfold importMapsFilepath, truthy. repeat split.
  - destruct (import_map config) as [[|c m]|]; [now right| |now left].
    destruct (path_isAbsolute E (String c m)); discriminate.
  - intros [-> | ->]; reflexivity.
  - intros m. destruct (import_map config) as [[|c m0]|]; try discriminate.
    destruct (path_isAbsolute E (String c m0)) eqn:Hm0;
      intros [= <-]; [exact Hm0 | apply Habs].
  - intros m -> Hm Hne. destruct m as [|c m]; [contradiction|].
    now rewrite Hm.
Qed.

(** With [enable] on, when the Deno resolver answers one [undefined] per
    specifier, the host is asked about the specifiers as they are and its
    answer is returned as it is. *)
Theorem nothing_resolved_is_host hostResolve moduleNames containingFile rest :
  enable config = true ->
  resolveModuleNames host = Some hostResolve ->
  resolverModules E project config containingFile moduleNames
  = replicate (length moduleNames) None ->
  exists wrapped,
    wrapped_resolveModuleNames E project config host = Some wrapped
    /\ moduleNamesForHost moduleNames
         (resolverModules E project config containingFile moduleNames)
       = Some <$> moduleNames
    /\ wrapped moduleNames containingFile rest
       = hostResolve (Some <$> moduleNames) containingFile rest.
Proof.
  intros Hon Hhost Hnone. unfold wrapped_resolveModuleNames.
  rewrite Hhost, Hon. cbn [negb]. eexists; split; [reflexivity|].
  assert (Hhanded : moduleNamesForHost moduleNames
                      (resolverModules E project config containingFile
                         moduleNames)
                    = Some <$> moduleNames).
  { apply list_eq. intros i.
    rewrite PluginFacts.moduleNamesForHost_lookup, Hnone, list_lookup_fmap.
    destruct (moduleNames !! i) as [specifier|] eqn:Hi.
    - rewrite lookup_replicate_2 by (eapply lookup_lt_Some; eassumption).
      reflexivity.
    - apply lookup_ge_None in Hi.
      now rewrite (proj1 (lookup_replicate_None _ _ _) Hi). }
  split; [exact Hhanded|].
  unfold resolveModuleNames_enabled. rewrite Hhanded, Hnone.
  apply list_eq. intros i. rewrite list_lookup_imap.
  destruct (hostResolve (Some <$> moduleNames) containingFile rest !! i)
    as [v|]; [|reflexivity].
  cbn. f_equal. unfold cacheFallback. destruct v; [reflexivity|].
  destruct (replicate (length moduleNames) None !! i) as [r|] eqn:Hr;
    [|reflexivity].
  apply lookup_replicate_1 in Hr as [-> _]. reflexivity.
Qed.

(** With [enable] on, the wrapper returns as many entries as the host, and
    each is the host's answer at that index or, where the host answered
    [undefined], a module for a file of the Deno resolver's result at that
    index that is absolute and exists. *)
Theorem module_results_from_host_or_cache hostResolve moduleNames
    containingFile rest :
  enable config = true ->
  resolveModuleNames host = Some hostResolve ->
  let resolvedModules :=
    resolverModules E project config containingFile moduleNames in
  let hostResults :=
    hostResolve (moduleNamesForHost moduleNames resolvedModules)
      containingFile rest in
  exists wrapped,
    wrapped_resolveModuleNames E project config host = Some wrapped
    /\ length (wrapped moduleNames containingFile rest) = length hostResults
    /\ forall i r,
        wrapped moduleNames containingFile rest !! i = Some r ->
        hostResults !! i = Some r
        \/ (hostResults !! i = Some None
            /\ exists cacheModule,
                resolvedModules !! i = Some (Some cacheModule)
                /\ path_isAbsolute E (filepath cacheModule) = true
                /\ pathExistsSync E (filepath cacheModule) = true
                /\ r = Some {| resolvedFileName := filepath cacheModule;
                               extension :=
                                 Some (Extension_Js (typescript E));
                               isExternalLibraryImport := Some false |}).
Proof.
  intros Hon Hhost. cbv zeta. unfold wrapped_resolveModuleNames.
  rewrite Hhost, Hon. cbn [negb]. eexists; split; [reflexivity|].
  split; [unfold resolveModuleNames_enabled; apply length_imap|].
  intros i r. rewrite PluginFacts.resolveModuleNames_enabled_lookup.
  cbv zeta.
  destruct (hostResolve _ containingFile rest !! i) as [v|];
    [|discriminate].
  cbn. intros [= <-]. unfold cacheFallback.
  destruct v as [v|]; [now left|].
  destruct (resolverModules E project config containingFile moduleNames !! i)
    as [[cacheModule|]|] eqn:Hr; try now left.
  destruct (path_isAbsolute E (filepath cacheModule)) eqn:Habs;
    [|now left].
  destruct (pathExistsSync E (filepath cacheModule)) eqn:Hex; [|now left].
  right. split; [reflexivity|]. now exists cacheModule.
Qed.

(** The host is asked about as many names as the Deno resolver returned
    entries, whatever the number of specifiers: a resolved entry gives its
    module, an unresolved one the specifier at its index, and [undefined]
    when the index is past the specifiers. *)
Theorem handed_names_follow_resolver moduleNames
    (resolvedModules : list (option ResolvedModule)) :
  let handed := moduleNamesForHost moduleNames resolvedModules in
  length handed = length resolvedModules
  /\ (forall i m, resolvedModules !! i = Some (Some m) ->
        handed !! i = Some (Some (module m)))
  /\ (forall i, resolvedModules !! i = Some None ->
        handed !! i = Some (moduleNames !! i))
  /\ (forall i, resolvedModules !! i = Some None ->
        (length moduleNames <= i)%nat -> handed !! i = Some None).
Proof.
  cbv zeta. split; [apply length_imap|]. repeat split.
  - intros i m Hi. now rewrite PluginFacts.moduleNamesForHost_lookup, Hi.
  - intros i Hi. now rewrite PluginFacts.moduleNamesForHost_lookup, Hi.
  - intros i Hi Hge. rewrite PluginFacts.moduleNamesForHost_lookup, Hi. cbn.
    f_equal. now apply lookup_ge_None.
Qed.

Lemma omap_id_some {A} (l : list A) : omap (fun v => v) (Some <$> l) = l.
Proof. induction l as [|x l IH]; cbn; [reflexivity|]. now f_equal. Qed.

Lemma omap_id_elem {A} (l : list (option A)) x :
  x ∈ omap (fun v => v) l <-> Some x ∈ l.
Proof.
  rewrite list_elem_of_omap. split.
  - intros (y & Hin & Hy). cbn in Hy. now subst y.
  - intros Hin. now exists (Some x).
Qed.

(** With [enable] on, the host is asked about the modules of the
    directives the Deno resolver resolved, and about nothing else: every
    name handed over is the module of a resolved entry, there are no more
    names than entries, and when every directive is resolved the host gets
    the module of each, in order. *)
Theorem type_directives_resolved_only hostResolve typeDirectiveNames
    containingFile rest :
  enable config = true ->
  resolveTypeReferenceDirectives host = Some hostResolve ->
  let resolvedModules :=
    resolverModules E project config containingFile typeDirectiveNames in
  let handed :=
    typeDirectiveNamesForHost E project config containingFile
      typeDirectiveNames in
  exists wrapped,
    wrapped_resolveTypeReferenceDirectives E project config host
    = Some wrapped
    /\ wrapped typeDirectiveNames containingFile rest
       = hostResolve handed containingFile rest
    /\ (forall n, n ∈ handed <->
                  exists m, Some m ∈ resolvedModules /\ n = module m)
    /\ (length handed <= length resolvedModules)%nat
    /\ (forall ms, resolvedModules = Some <$> ms -> handed = module <$> ms).
Proof.
  intros Hon Hhost. cbv zeta. unfold wrapped_resolveTypeReferenceDirectives.
  rewrite Hhost, Hon. cbn [negb]. eexists; split; [reflexivity|].
  split; [reflexivity|]. unfold typeDirectiveNamesForHost.
  split; [|split].
  - intros n. rewrite list_elem_of_fmap. split.
    + intros (m & -> & Hin). exists m. split; [|reflexivity].
      now apply omap_id_elem.
    + intros (m & Hin & ->). exists m. split; [reflexivity|].
      now apply omap_id_elem.
  - rewrite length_fmap. apply PluginFacts.omap_id_length.
  - intros ms ->. now rewrite omap_id_some.
Qed.

Lemma fmap_fixed {A} (f : A -> A) (l : list A) :
  (forall x, f x = x) -> f <$> l = l.
Proof.
  intros Hf. induction l as [|x l IH]; cbn; [reflexivity|].
  now rewrite Hf, IH.
Qed.

Lemma rewriteSourcePart_kind fileName0 part :
  kind (rewriteSourcePart E fileName0 part) = kind part.
Proof.
  unfold rewriteSourcePart.
  destruct (String.eqb (kind part) "text"); [|reflexivity].
  destruct (path_isAbsolute E _); [|reflexivity].
  destruct (CacheModule_create E _); reflexivity.
Qed.

Lemma rewriteSourcePart_other fileName0 part :
  kind part <> "text" -> rewriteSourcePart E fileName0 part = part.
Proof.
  intros Hkind. unfold rewriteSourcePart.
  destruct (String.eqb_spec (kind part) "text"); [contradiction|reflexivity].
Qed.

(** With [enable] on, completion details that are absent or not of
    modifier [export] come back as the host gave them; otherwise the name,
    the modifiers, the display parts, the number of code actions and the
    kind of every source part are the host's, and a source part that is
    not of kind [text] is unchanged. *)
Theorem completion_details_kept fileName0 position name0 rest :
  enable config = true ->
  let details :=
    getCompletionEntryDetails host fileName0 position name0 rest in
  let result :=
    wrapped_getCompletionEntryDetails E config host fileName0 position name0
      rest in
  (details = None -> result = None)
  /\ forall d,
      details = Some d ->
      (kindModifiers d <> "export" -> result = Some d)
      /\ exists d',
          result = Some d'
          /\ name d' = name d
          /\ kindModifiers d' = kindModifiers d
          /\ displayParts d' = displayParts d
          /\ (fun cas : list CodeAction => length cas) <$> codeActions d'
             = (fun cas : list CodeAction => length cas) <$> codeActions d
          /\ (fun parts : list SymbolDisplayPart => kind <$> parts)
             <$> source d'
             = (fun parts : list SymbolDisplayPart => kind <$> parts)
               <$> source d
          /\ forall parts i part,
              source d = Some parts ->
              parts !! i = Some part ->
              kind part <> "text" ->
              exists parts',
                source d' = Some parts' /\ parts' !! i = Some part.
Proof.
  intros Hon details result. subst result.
  unfold wrapped_getCompletionEntryDetails. rewrite Hon. cbn [negb].
  fold details. split; [now intros ->|].
  intros d ->. destruct (String.eqb_spec (kindModifiers d) "export") as [He|Hne].
  - split; [contradiction|]. eexists. split; [reflexivity|]. cbn.
    repeat split.
    + destruct (codeActions d) as [cas|]; cbn; [|reflexivity].
      now rewrite length_fmap.
    + destruct (source d) as [parts|]; cbn; [|reflexivity].
      f_equal. rewrite <- list_fmap_compose. apply list_fmap_ext.
      intros _ part _. apply rewriteSourcePart_kind.
    + intros parts i part -> Hi Hkind. eexists. split; [reflexivity|].
      rewrite list_lookup_fmap, Hi. cbn.
      now rewrite rewriteSourcePart_other.
  - split; [reflexivity|]. exists d. repeat split.
    intros parts i part Hs Hi _. now exists parts.
Qed.

(** The loop over the code actions changes the new text of text changes
    and nothing else: descriptions, file names, new-file flags and spans
    stay, and a change that creates a file is left as it is. *)
Theorem code_actions_touch_text_only fileName0 ca :
  let ca' := normalizeCodeAction E fileName0 ca in
  description ca' = description ca
  /\ length (changes ca') = length (changes ca)
  /\ forall i change,
      changes ca !! i = Some change ->
      exists change',
        changes ca' !! i = Some change'
        /\ fileName change' = fileName change
        /\ isNewFile change' = isNewFile change
        /\ (span <$> textChanges change') = (span <$> textChanges change)
        /\ (isNewFile change = Some true -> change' = change)
        /\ (isNewFile change <> Some true ->
            (newText <$> textChanges change')
            = (fun tc => normalizeImportStatement E fileName0 (newText tc))
              <$> textChanges change).
Proof.
  cbv zeta. unfold normalizeCodeAction. cbn. split; [reflexivity|].
  split; [apply length_fmap|].
  intros i change Hi. eexists. rewrite list_lookup_fmap, Hi.
  split; [reflexivity|]. unfold normalizeChange, is_true.
  destruct (isNewFile change) as [[|]|] eqn:Hnew; cbn;
    repeat split; try congruence; try reflexivity;
    try (intros _); rewrite <- ?list_fmap_compose; try reflexivity.
Qed.

(** With [enable] on, when [normalizeImportStatement] leaves every text of
    the file as it is and no path names a cached module, the completion
    details are the host's. *)
Theorem completion_details_neutral fileName0 position name0 rest :
  enable config = true ->
  (forall statement, normalizeImportStatement E fileName0 statement = statement) ->
  (forall p, CacheModule_create E p = None) ->
  wrapped_getCompletionEntryDetails E config host fileName0 position name0 rest
  = getCompletionEntryDetails host fileName0 position name0 rest.
Proof.
  intros Hon Hnorm Hcache.
  unfold wrapped_getCompletionEntryDetails. rewrite Hon. cbn [negb].
  destruct (getCompletionEntryDetails host fileName0 position name0 rest)
    as [d|]; [|reflexivity].
  destruct (String.eqb (kindModifiers d) "export"); [|reflexivity].
  assert (Htc : forall tc, normalizeTextChange E fileName0 tc = tc).
  { intros [sp txt]. unfold normalizeTextChange. cbn. now rewrite Hnorm. }
  assert (Hchange : forall change, normalizeChange E fileName0 change = change).
  { intros [fn tcs nf]. unfold normalizeChange. cbn.
    destruct (negb (is_true nf)); [|reflexivity].
    now rewrite (fmap_fixed _ tcs Htc). }
  assert (Hca : forall ca, normalizeCodeAction E fileName0 ca = ca).
  { intros [desc chs]. unfold normalizeCodeAction. cbn.
    now rewrite (fmap_fixed _ chs Hchange). }
  assert (Hpart : forall part, rewriteSourcePart E fileName0 part = part).
  { intros part. unfold rewriteSourcePart. rewrite Hcache.
    destruct (String.eqb (kind part) "text"); [|reflexivity].
    now destruct (path_isAbsolute E _). }
  destruct d as [n km dp cas src]. cbn. f_equal. f_equal.
  - destruct cas as [cas|]; cbn; [|reflexivity].
    now rewrite (fmap_fixed _ cas Hca).
  - destruct src as [parts|]; cbn; [|reflexivity].
    now rewrite (fmap_fixed _ parts Hpart).
Qed.

End Enabled.

(** The theorems at the demo and sample projects. *)


Lemma settings_keys_witness :
  obj_has "target"
    (wrapped_getCompilationSettings Demo.env Demo.enabled Demo.host) = true
  /\ obj_has "lib"
       (wrapped_getCompilationSettings Demo.env Demo.enabled Demo.host) = true.
Proof.
  pose proof (settings_keys Demo.env Demo.enabled Demo.host "target" eq_refl)
    as (Hdefault & _ & _).
  pose proof (settings_keys Demo.env Demo.enabled Demo.host "lib" eq_refl)
    as (_ & Hproject & _).
  split; [exact (Hdefault eq_refl) | exact (Hproject eq_refl eq_refl)].
Defined.

Lemma handed_names_follow_resolver_witness :
  moduleNamesForHost ["lodash"] [None; None] !! 1%nat = Some None
  /\ length (moduleNamesForHost ["lodash"] [None; None]) = 2%nat.
Proof.
  pose proof (handed_names_follow_resolver ["lodash"] [None; None])
    as (Hlen & _ & _ & Hpast).
  split; [|exact Hlen]. apply Hpast; [reflexivity|]. cbn. lia.
Defined.

Lemma default_setting_kept_witness :
  obj_get "outDir" (getCompilationSettings Demo.host) = None
  /\ obj_get "outDir"
       (wrapped_getCompilationSettings Demo.env Demo.enabled Demo.host)
     = Some (JStr "$deno$").
Proof.
  split; [reflexivity|].
  exact (default_setting_kept Demo.env Demo.enabled Demo.host "outDir"
           eq_refl eq_refl eq_refl).
Defined.

Lemma diagnostics_without_ignored_witness :
  length (getSemanticDiagnostics Demo.host "/proj/main.ts") = 2%nat
  /\ (length (wrapped_getSemanticDiagnostics Demo.enabled Demo.host
                "/proj/main.ts") <= 2)%nat
  /\ {| code := 2304; messageText := "cannot find name" |}
     ∈ wrapped_getSemanticDiagnostics Demo.enabled Demo.host "/proj/main.ts".
Proof.
  pose proof (diagnostics_without_ignored Demo.enabled Demo.host
                "/proj/main.ts" eq_refl) as (Hiff & _ & Hlen).
  split; [reflexivity|]. split; [exact Hlen|].
  apply Hiff. split.
  - cbn. apply list_elem_of_further, list_elem_of_here.
  - split; discriminate.
Defined.

Lemma script_files_then_declarations_witness :
  wrapped_getScriptFileNames Sample.env Demo.enabled Sample.host !! 2%nat
  = Some "/deno/lib.deno_runtime.d.ts"
  /\ length (wrapped_getScriptFileNames Sample.env Demo.enabled Sample.host)
     = 3%nat.
Proof.
  pose proof (script_files_then_declarations Sample.env Demo.enabled
                Sample.host eq_refl) as (Hlen & _ & Hlast).
  split; [exact Hlast | exact Hlen].
Defined.

Lemma resolver_containing_file_witness :
  realContainingFile Sample.plainProject "/proj/main.ts" = "/proj/main.ts".
Proof.
  exact (proj1 (proj2 (resolver_containing_file Sample.plainProject
                         "/proj/main.ts")) eq_refl eq_refl).
Defined.

Lemma starts_with_longer q s x :
  Str.starts_with q s = true -> Str.starts_with q (s +:+ x) = true.
Proof.
  revert s. induction q as [|a q IH]; intros s; [reflexivity|].
  destruct s as [|b s]; [discriminate|].
  change (Ascii.eqb a b && Str.starts_with q s = true ->
          Ascii.eqb a b && Str.starts_with q (s +:+ x) = true).
  intros H. apply andb_prop in H as [Hab Hq]. now rewrite Hab, (IH s Hq).
Qed.

Lemma sample_resolve_absolute base p :
  path_isAbsolute Sample.env (path_resolve Sample.env base p) = true.
Proof.
  unfold Sample.env. cbn [path_isAbsolute path_resolve].
  destruct (Str.starts_with "/" p) eqn:Hp; [exact Hp|].
  destruct (Str.starts_with "/" base) eqn:Hb; [|reflexivity].
  now apply starts_with_longer.
Qed.

Lemma import_map_path_absolute_witness :
  importMapsFilepath Sample.env Demo.project Demo.enabled
  = Some "/proj/import_map.json"
  /\ path_isAbsolute Sample.env "/proj/import_map.json" = true
  /\ importMapsFilepath Sample.env Demo.project Sample.noMap = None.
Proof.
  pose proof (import_map_path_absolute Sample.env Demo.project Demo.enabled
                sample_resolve_absolute) as (_ & Habs & _).
  pose proof (import_map_path_absolute Sample.env Demo.project Sample.noMap
                sample_resolve_absolute) as (Hnone & _ & _).
  split; [reflexivity|]. split; [exact (Habs _ eq_refl)|].
  apply Hnone. right. reflexivity.
Defined.

Lemma nothing_resolved_is_host_witness :
  exists wrapped,
    wrapped_resolveModuleNames Sample.blindEnv Demo.project Demo.enabled
      Demo.host = Some wrapped
    /\ wrapped ["./local.ts"; "lodash"] "/proj/main.ts" tt
       = [Some Demo.localModule; None].
Proof.
  destruct (nothing_resolved_is_host Sample.blindEnv Demo.project
              Demo.enabled Demo.host _ ["./local.ts"; "lodash"]
              "/proj/main.ts" tt eq_refl eq_refl eq_refl)
    as (wrapped & Hwrapped & _ & Hsame).
  exists wrapped. split; [exact Hwrapped|]. rewrite Hsame. reflexivity.
Defined.

Lemma module_results_from_host_or_cache_witness :
  exists wrapped,
    wrapped_resolveModuleNames Demo.env Demo.project Demo.enabled Demo.host
    = Some wrapped
    /\ length (wrapped ["./local.ts"; "https://deno.land/x/none.ts"]
                 "/proj/main.ts" tt) = 2%nat.
Proof.
  destruct (module_results_from_host_or_cache Demo.env Demo.project
              Demo.enabled Demo.host _
              ["./local.ts"; "https://deno.land/x/none.ts"] "/proj/main.ts" tt
              eq_refl eq_refl)
    as (wrapped & Hwrapped & Hlen & _).
  exists wrapped. split; [exact Hwrapped|]. rewrite Hlen. reflexivity.
Defined.

Lemma type_directives_resolved_only_witness :
  exists wrapped,
    wrapped_resolveTypeReferenceDirectives Demo.env Demo.project Demo.enabled
      Demo.host = Some wrapped
    /\ typeDirectiveNamesForHost Demo.env Demo.project Demo.enabled
         "/proj/main.ts" ["https://deno.land/std/fs/mod.ts"]
       = ["https://deno.land/std/fs/mod.ts"].
Proof.
  destruct (type_directives_resolved_only Demo.env Demo.project Demo.enabled
              Demo.host _ ["https://deno.land/std/fs/mod.ts"] "/proj/main.ts"
              tt eq_refl eq_refl)
    as (wrapped & Hwrapped & _ & _ & _ & Hall).
  exists wrapped. split; [exact Hwrapped|].
  exact (Hall [{| module := "https://deno.land/std/fs/mod.ts";
                  filepath := "/deno/deps/https/deno.land/std/fs/mod.ts" |}]
           eq_refl).
Defined.

Lemma completion_details_kept_witness :
  exists d',
    wrapped_getCompletionEntryDetails Sample.env Demo.enabled Sample.host
      "/proj/main.ts" 0 "exists" tt = Some d'
    /\ name d' = "exists"
    /\ displayParts d' = displayParts Sample.details.
Proof.
  destruct (proj2 (completion_details_kept Sample.env Demo.enabled
                     Sample.host "/proj/main.ts" 0 "exists" tt eq_refl)
              Sample.details eq_refl)
    as (_ & d' & Hd' & Hname & _ & Hparts & _).
  exists d'. split; [exact Hd'|]. split; [exact Hname | exact Hparts].
Defined.

Lemma code_actions_touch_text_only_witness :
  exists change',
    changes (normalizeCodeAction Sample.env "/proj/main.ts"
               {| description := "Import exists";
                  changes := [Sample.importChange; Sample.newFileChange] |})
      !! 1%nat = Some change'
    /\ change' = Sample.newFileChange.
Proof.
  destruct (proj2 (proj2 (code_actions_touch_text_only Sample.env
                            "/proj/main.ts"
                            {| description := "Import exists";
                               changes := [Sample.importChange;
                                           Sample.newFileChange] |}))
              1%nat Sample.newFileChange eq_refl)
    as (change' & Hchange & _ & _ & _ & Hnew & _).
  exists change'. split; [exact Hchange | exact (Hnew eq_refl)].
Defined.

Lemma completion_details_neutral_witness :
  wrapped_getCompletionEntryDetails Demo.env Demo.enabled Sample.host
    "/proj/main.ts" 0 "exists" tt = Some Sample.details.
Proof.
  exact (completion_details_neutral Demo.env Demo.enabled Sample.host
           "/proj/main.ts" 0 "exists" tt eq_refl (fun _ => eq_refl)
           (fun _ => eq_refl)).
Defined.

(** On the sample project the text of a source part that names a cached
    file becomes the module's URL and the import statement is normalized. *)
Example completion_sample :
  (fun d => (source d, (fun cas : list CodeAction =>
                          (fun ca => textChanges <$> changes ca) <$> cas)
                       <$> codeActions d))
  <$> wrapped_getCompletionEntryDetails Sample.env Demo.enabled Sample.host
        "/proj/main.ts" 0 "exists" tt
  = Some
      (Some [{| text := "https://deno.land/std/fs/mod.ts"; kind := "text" |};
             {| text := "."; kind := "punctuation" |}],
       Some [[[{| span := (0, 0);
                  newText := "import { exists } from ./mod;" |}];
              [{| span := (0, 0); newText := "export {}" |}]]]).
Proof. reflexivity. Qed.

End PluginMore.

(** ** The references provider: any range *)

Module RefsMore.
Import Refs.

Section Provider.

Context {TextDocument : Type}.
Variable S : Services TextDocument.

Lemma visit_filter position hints locations :
  fold_left (visitHint S position) hints locations
  = locations ++ (locationAt S <$> List.filter (reported S position) hints).
Proof.
  revert locations. induction hints as [|h hints IH]; intros locations.
  - cbn. now rewrite app_nil_r.
  - cbn [fold_left List.filter]. rewrite IH.
    unfold visitHint, reported, locationAt.
    destruct (positionHits position h); cbn;
      [destruct (pathExists S (filepath h)); cbn|];
      now rewrite <- ?app_assoc.
Qed.

(** For an unknown document the handler returns nothing at all; for a
    known one it returns, in the order of the pragmas, one location per
    pragma that passes the four comparisons and whose file exists: never
    more locations than pragmas, each with the range (0,0)-(0,0) and the
    URI of the file of such a pragma. *)
Theorem references_in_hint_order textDocument_uri position :
  (documents_get S textDocument_uri = None ->
   onReferences S textDocument_uri position = None)
  /\ forall document,
      documents_get S textDocument_uri = Some document ->
      let hints := getDenoTypesHintsFromDocument S document in
      exists locations,
        onReferences S textDocument_uri position = Some locations
        /\ locations
           = locationAt S <$> List.filter (reported S position) hints
        /\ (length locations <= length hints)%nat
        /\ forall loc,
            loc ∈ locations ->
            range loc = Range_create 0 0 0 0
            /\ exists h,
                h ∈ hints
                /\ positionHits position h = true
                /\ pathExists S (filepath h) = true
                /\ uri loc = URI_file S (filepath h).
Proof.
  unfold onReferences. split; [now intros ->|].
  intros document Hdoc. cbv zeta. rewrite Hdoc.
  set (hints := getDenoTypesHintsFromDocument S document).
  eexists. split; [reflexivity|]. rewrite visit_filter. cbn [app].
  split; [reflexivity|]. split.
  - rewrite length_fmap. apply List.filter_length_le.
  - intros loc Hin. apply list_elem_of_fmap in Hin as (h & -> & Hh).
    split; [reflexivity|]. exists h.
    apply list_elem_of_In, List.filter_In in Hh as [Hh Hrep].
    unfold reported in Hrep. apply andb_prop in Hrep as [Hhit Hex].
    repeat split; try assumption. now apply list_elem_of_In.
Qed.

(** A position that passes the handler's four comparisons is inside the
    range, whatever the range; and a range whose end column or end line is
    before its start is hit by no position. *)
Theorem hit_is_inside position h :
  (positionHits position h = true -> inside position (contentRange h) = true)
  /\ (character (range_end (contentRange h))
      < character (range_start (contentRange h)) ->
      positionHits position h = false)
  /\ (line (range_end (contentRange h)) < line (range_start (contentRange h)) ->
      positionHits position h = false).
Proof.
  unfold positionHits, inside, position_leb. cbv zeta. repeat split.
  - rewrite !andb_true_iff, !orb_true_iff, !andb_true_iff, !Z.leb_le,
      !Z.ltb_lt, !Z.eqb_eq. lia.
  - intros Hcol. apply not_true_is_false.
    rewrite !andb_true_iff, !Z.leb_le. lia.
  - intros Hline. apply not_true_is_false.
    rewrite !andb_true_iff, !Z.leb_le. lia.
Qed.

End Provider.

Lemma references_in_hint_order_witness :
  onReferences Sample.services "file:///proj/main.ts"
    {| line := 0; character := 16 |}
  = Some [{| uri := "file:///proj/types.d.ts";
             range := Range_create 0 0 0 0 |}]
  /\ onReferences Sample.services "file:///proj/other.ts"
       {| line := 0; character := 16 |} = None.
Proof.
  pose proof (references_in_hint_order Sample.services "file:///proj/main.ts"
                {| line := 0; character := 16 |}) as [_ Hknown].
  pose proof (references_in_hint_order Sample.services "file:///proj/other.ts"
                {| line := 0; character := 16 |}) as [Hunknown _].
  destruct (Hknown "main" eq_refl) as (locations & Hloc & -> & _).
  split; [exact Hloc | exact (Hunknown eq_refl)].
Defined.

Lemma hit_is_inside_witness :
  positionHits {| line := 0; character := 28 |} Demo.typesHint = true
  /\ inside {| line := 0; character := 28 |} (contentRange Demo.typesHint)
     = true.
Proof.
  split; [reflexivity|].
  exact (proj1 (hit_is_inside {| line := 0; character := 28 |} Demo.typesHint)
           eq_refl).
Defined.

End RefsMore.
